(** * Video Tool for Editor.js: the block controller and its UI state machine

    A shallow embedding of [src/index.ts] (class [VideoTool]) and [src/ui.ts]
    (class [Ui], enum [UiState]), with the theorems that settle the
    specification's statements about them.

    Conventions of the embedding:
    - JavaScript values that the code handles dynamically (saved block data,
      server responses) are values of [JsVal]; numbers are IEEE 754 binary64
      floats ([PrimFloat.float]), objects are association lists in insertion
      order.
    - JavaScript strings are modelled by [string]; in urls and patterns each
      character stands for one code unit below 256 (the one literal of the
      sources with a character beyond that, the notification text, is kept
      as its UTF-8 bytes).
    - Code that can throw returns an [Outcome]; methods of the controller run
      in the state-and-exception monad [M] over the [World] (the tool object
      and the host surfaces it writes to: notifier and console).
    - A DOM element is an [Element] record; the children that [fillVideo]
      appends to the video container form a store and [nodes.videoEl] is a
      reference into it. An element's [innerHTML] is what its getter reads;
      an assignment of markup goes through the document's parser and
      serialiser ([innerHTML_after_assignment]). *)

From Stdlib Require Import Ascii String Floats.
From stdpp Require Import gmap strings list.

Set Warnings "-register-all,-clear-no-such-hyp".

Open Scope string_scope.

(* ===================================================================== *)
(** ** JavaScript values *)
(* ===================================================================== *)

Inductive JsVal : Type :=
| JUndefined
| JNull
| JBool (b : bool)
| JNum (x : float)
| JStr (s : string)
| JObj (props : list (string * JsVal)).

(** What a JavaScript [throw] carries. [TypeError] is the engine's error for
    reading a property of [undefined] or [null]; it records the property
    that was read. [Error] is [new Error(message)]. [DOMException] is the
    browser's error, with its [name]. *)
Inductive Exception : Type :=
| TypeError (property : string)
| Error (message : string)
| DOMException (name : string).

Inductive Outcome (A : Type) : Type :=
| Return (a : A)
| Throw (e : Exception).
Arguments Return {A} a.
Arguments Throw {A} e.

(** ToBoolean: [undefined], [null], [false], [+0], [-0], [NaN] and the empty
    string are falsy; every object is truthy. *)
Definition ToBoolean (v : JsVal) : bool :=
  match v with
  | JUndefined | JNull => false
  | JBool b => b
  | JNum x => negb (PrimFloat.eqb x 0%float || PrimFloat.is_nan x)
  | JStr s => negb (String.eqb s "")
  | JObj _ => true
  end.

(** [a || b] *)
Definition js_or (a b : JsVal) : JsVal := if ToBoolean a then a else b.

(** The first binding of [k] in an object's property list. *)
Fixpoint lookup_prop (k : string) (props : list (string * JsVal)) : JsVal :=
  match props with
  | [] => JUndefined
  | (k', v) :: rest => if String.eqb k k' then v else lookup_prop k rest
  end.

(** [v.k] for the property names this tool reads ([file], [url], [caption],
    [aspectRatio], [success]): a [TypeError] on [undefined] and [null],
    the property of an object, [undefined] on the other primitives (which
    have no property of these names). *)
Definition Get (v : JsVal) (k : string) : Outcome JsVal :=
  match v with
  | JUndefined | JNull => Throw (TypeError k)
  | JObj props => Return (lookup_prop k props)
  | JBool _ | JNum _ | JStr _ => Return JUndefined
  end.

(** [a ?? b] on an optional float property. *)
Definition nullish (a : option float) (b : float) : float :=
  match a with
  | Some x => x
  | None => b
  end.

(* ===================================================================== *)
(** ** Regular expressions

    The two patterns of the sources, [/\.mp4$/] and the paste pattern, have
    no [^] and end in [$] (without the [m] flag: the end of the input).
    [body.test(s)] therefore holds when some suffix of [s] is matched in
    full by the body. Full matching is decided with derivatives. *)
(* ===================================================================== *)

Inductive Re : Type :=
| ReNone
| ReEps
| ReChar (p : ascii -> bool)
| ReSeq (r s : Re)
| ReAlt (r s : Re)
| ReStar (r : Re).

Fixpoint nullable (r : Re) : bool :=
  match r with
  | ReNone => false
  | ReEps => true
  | ReChar _ => false
  | ReSeq r s => nullable r && nullable s
  | ReAlt r s => nullable r || nullable s
  | ReStar _ => true
  end.

Fixpoint deriv (c : ascii) (r : Re) : Re :=
  match r with
  | ReNone => ReNone
  | ReEps => ReNone
  | ReChar p => if p c then ReEps else ReNone
  | ReSeq r s =>
      ReAlt (ReSeq (deriv c r) s) (if nullable r then deriv c s else ReNone)
  | ReAlt r s => ReAlt (deriv c r) (deriv c s)
  | ReStar r => ReSeq (deriv c r) (ReStar r)
  end.

(** The whole of [s] is matched by [r]. *)
Fixpoint matches (r : Re) (s : string) : bool :=
  match s with
  | EmptyString => nullable r
  | String c s' => matches (deriv c r) s'
  end.

(** [/body$/.test(s)]: a match may start at any index and must reach the end
    of the input. *)
Fixpoint test (body : Re) (s : string) : bool :=
  matches body s ||
  match s with
  | EmptyString => false
  | String _ s' => test body s'
  end.

(** A literal character, and a literal string. *)
Definition re_chr (c : ascii) : Re := ReChar (Ascii.eqb c).

Fixpoint re_lit (w : string) : Re :=
  match w with
  | EmptyString => ReEps
  | String c w' => ReSeq (re_chr c) (re_lit w')
  end.

(** Under the [i] flag a character is compared after case folding. *)
Definition to_lower (c : ascii) : ascii :=
  let n := nat_of_ascii c in
  if (65 <=? n)%nat && (n <=? 90)%nat then ascii_of_nat (n + 32) else c.

Definition re_chr_i (c : ascii) : Re :=
  ReChar (fun x => Ascii.eqb (to_lower x) (to_lower c)).

Fixpoint re_lit_i (w : string) : Re :=
  match w with
  | EmptyString => ReEps
  | String c w' => ReSeq (re_chr_i c) (re_lit_i w')
  end.

Definition re_opt (r : Re) : Re := ReAlt r ReEps.
Definition re_plus (r : Re) : Re := ReSeq r (ReStar r).

(** [\S]: anything but white space; below 256 the white space characters are
    TAB, LF, VT, FF, CR, SPACE and NBSP. *)
Definition non_space (c : ascii) : bool :=
  let n := nat_of_ascii c in
  negb (((9 <=? n)%nat && (n <=? 13)%nat) || (n =? 32)%nat || (n =? 160)%nat).

(** [[a-z0-9=]] under the [i] flag. *)
Definition query_char (c : ascii) : bool :=
  let n := nat_of_ascii (to_lower c) in
  ((97 <=? n)%nat && (n <=? 122)%nat) || ((48 <=? n)%nat && (n <=? 57)%nat)
  || (n =? 61)%nat.

(** [/\.mp4$/], the test of [Ui.fillVideo]. *)
Definition mp4_pattern : Re := re_lit ".mp4".

(** The [video] pattern of [VideoTool.pasteConfig], with the [i] flag:
    [http], an optional [s], [://], one or more [\S], a dot, [webm] or [mp4],
    then optionally a question mark followed by any number of characters of
    [[a-z0-9=]], then the end of the input. *)
Definition pasteConfig_patterns_video : Re :=
  ReSeq (re_lit_i "http")
 (ReSeq (re_opt (re_chr_i "s"))
 (ReSeq (re_lit_i "://")
 (ReSeq (re_plus (ReChar non_space))
 (ReSeq (re_chr_i ".")
 (ReSeq (ReAlt (re_lit_i "webm") (re_lit_i "mp4"))
        (re_opt (ReSeq (re_chr_i "?") (ReStar (ReChar query_char))))))))).

(* ===================================================================== *)
(** ** The DOM as far as the tool touches it *)
(* ===================================================================== *)

(** [enum UiState] of [ui.ts]; its members are written [UiState.Empty],
    [UiState.Uploading] and [UiState.Filled], as in the source. *)
Module UiState.

Inductive t : Type :=
| Empty
| Uploading
| Filled.

(** The enum's string values. *)
Definition value (s : t) : string :=
  match s with
  | Empty => "empty"
  | Uploading => "uploading"
  | Filled => "filled"
  end.

(** The enum's members in declaration order, as [for (... in UiState)]
    enumerates them. *)
Definition members : list t := [Empty; Uploading; Filled].

Definition eqb (a b : t) : bool :=
  match a, b with
  | Empty, Empty | Uploading, Uploading | Filled, Filled => true
  | _, _ => false
  end.

End UiState.

(** The two closures the sources register as event listeners:
    [() => { this.toggleStatus(UiState.Filled) }] in [fillVideo] and
    [() => { this.onSelectFile() }] in [createFileButton]. *)
Inductive Listener : Type :=
| ToggleStatus (status : UiState.t)
| OnSelectFile.

Record Element : Type := mkElement {
  tagName : string;
  classList : gset string;
  (** properties assigned at creation ([src], [playsinline], ...) *)
  attributes : list (string * JsVal);
  dataset_placeholder : option string;
  (** what the [innerHTML] getter reads: the serialisation of the element's
      children *)
  innerHTML : string;
  listeners : list (string * Listener);
  (** [videoWidth] and [videoHeight] exist on a video element only, where
      they are 0 until the browser knows the video's dimensions. *)
  videoWidth : option float;
  videoHeight : option float
}.

Definition set_classList (cl : gset string) (e : Element) : Element :=
  mkElement (tagName e) cl (attributes e) (dataset_placeholder e)
    (innerHTML e) (listeners e) (videoWidth e) (videoHeight e).

Definition set_innerHTML (html : string) (e : Element) : Element :=
  mkElement (tagName e) (classList e) (attributes e) (dataset_placeholder e)
    html (listeners e) (videoWidth e) (videoHeight e).

(** What [el.innerHTML] reads after [el.innerHTML = markup]. The browser
    parses the markup into the element's children, and the getter serialises
    them again: assigning the empty string leaves the element empty, and for
    any other markup the getter returns [reserialize markup], where
    [reserialize] is the parse-then-serialise round trip of the document the
    element belongs to (it turns [Tom & Jerry] into [Tom &amp; Jerry] and
    closes the open tag of [<b>bold]). *)
Definition innerHTML_after_assignment (reserialize : string -> string)
    (markup : string) : string :=
  if String.eqb markup "" then "" else reserialize markup.

Definition set_placeholder (text : string) (e : Element) : Element :=
  mkElement (tagName e) (classList e) (attributes e) (Some text)
    (innerHTML e) (listeners e) (videoWidth e) (videoHeight e).

Definition set_dimensions (w h : float) (e : Element) : Element :=
  mkElement (tagName e) (classList e) (attributes e) (dataset_placeholder e)
    (innerHTML e) (listeners e) (Some w) (Some h).

(** [el.addEventListener(eventName, listener)] *)
Definition addEventListener (eventName : string) (l : Listener) (e : Element)
  : Element :=
  mkElement (tagName e) (classList e) (attributes e) (dataset_placeholder e)
    (innerHTML e) (listeners e ++ [(eventName, l)])%list (videoWidth e)
    (videoHeight e).

(** The update of [classList.toggle(token, force)], for a token the DOM
    accepts: the token is added when [force] is true and removed when
    [force] is false. *)
Definition classList_toggle (token : string) (force : bool)
    (cl : gset string) : gset string :=
  if force then cl ∪ {[token]} else cl ∖ {[token]}.

(** ASCII white space of the DOM standard: tab, line feed, form feed,
    carriage return and space. *)
Definition is_ascii_whitespace (c : ascii) : bool :=
  existsb (Ascii.eqb c) ["009"; "010"; "012"; "013"; " "]%char.

Fixpoint contains_ascii_whitespace (s : string) : bool :=
  match s with
  | EmptyString => false
  | String c rest => is_ascii_whitespace c || contains_ascii_whitespace rest
  end.

(** [classList.toggle(token, force)] as the DOM defines it: a [SyntaxError]
    for the empty token and an [InvalidCharacterError] for a token with
    white space in it, both thrown before the class list is touched;
    otherwise the update of [classList_toggle]. *)
Definition DOMTokenList_toggle (token : string) (force : bool)
    (cl : gset string) : Outcome (gset string) :=
  if String.eqb token "" then Throw (DOMException "SyntaxError")
  else if contains_ascii_whitespace token
       then Throw (DOMException "InvalidCharacterError")
       else Return (classList_toggle token force cl).

Definition classList_contains (token : string) (cl : gset string) : bool :=
  bool_decide (token ∈ cl).

(** Modelled from the spec: [make] of [src/utils/dom.ts], the "DOM
    construction utility" that the specification names as an external
    collaborator and that is not among the sources. It creates an element of
    the given tag, adds the class names and assigns the attributes as
    properties. A new video element reports [videoWidth = videoHeight = 0];
    other elements have no such properties. *)
Definition make (tag : string) (classNames : list string)
    (attrs : list (string * JsVal)) : Element :=
  let video := String.eqb tag "VIDEO" in
  {| tagName := tag;
     classList := list_to_set classNames;
     attributes := attrs;
     dataset_placeholder := None;
     innerHTML := "";
     listeners := [];
     videoWidth := if video then Some 0%float else None;
     videoHeight := if video then Some 0%float else None |}.

(* ===================================================================== *)
(** ** Host API and configuration *)
(* ===================================================================== *)

(** The parts of the Editor.js [API] the tool uses; [api.notifier] is a
    surface the tool writes to and lives in the [World]. *)
Record API : Type := {
  i18n_t : string -> string;
  styles_block : string;
  styles_loader : string;
  styles_input : string;
  styles_button : string
}.

(** [features.caption]: [true], [false] or ['optional'] ([None] when the
    property is undefined). *)
Inductive CaptionFeature : Type :=
| CaptionBool (b : bool)
| CaptionOptional.

Record ActionConfig : Type := {
  name : string;
  icon : string;
  title : string;
  toggle : option bool;
  (** whether [typeof tune.action === 'function'] *)
  has_action : bool
}.

(** The tool's [VideoConfig] after the constructor's defaults. The fields
    that are only handed on to the uploader ([endpoints],
    [additionalRequestData], [additionalRequestHeaders], [field], [types],
    [uploader]) are left out. *)
Record VideoConfig : Type := {
  captionPlaceholder : string;
  buttonContent : option string;
  actions : option (list ActionConfig);
  features_caption : option CaptionFeature
}.

(** The user's configuration as the host passes it. *)
Record UserConfig : Type := {
  user_captionPlaceholder : option string;
  user_buttonContent : option string;
  user_actions : option (list ActionConfig);
  (** [config.features]; [features || {}] makes an absent object an empty
      one, whose [caption] is undefined. *)
  user_features : option (option CaptionFeature)
}.

(* ===================================================================== *)
(** ** [class Ui] of [ui.ts] *)
(* ===================================================================== *)

Record Ui : Type := mkUi {
  ui_api : API;
  ui_config : VideoConfig;
  ui_readOnly : bool;
  nodes_wrapper : Element;
  nodes_videoContainer : Element;
  nodes_fileButton : Element;
  (** [nodes.videoEl]: a reference to one of [container_media], or undefined *)
  nodes_videoEl : option nat;
  nodes_videoPreloader : Element;
  nodes_caption : Element;
  (** The children of the video container after the preloader: the elements
      [fillVideo] appended, oldest first. Nothing in the sources removes
      one. *)
  container_media : list Element;
  (** The parse-then-serialise round trip of the document the nodes were
      created in (see [innerHTML_after_assignment]). *)
  document_reserialize : string -> string
}.

Definition set_wrapper (w : Element) (u : Ui) : Ui :=
  mkUi (ui_api u) (ui_config u) (ui_readOnly u) w (nodes_videoContainer u)
    (nodes_fileButton u) (nodes_videoEl u) (nodes_videoPreloader u)
    (nodes_caption u) (container_media u) (document_reserialize u).

Definition set_caption (c : Element) (u : Ui) : Ui :=
  mkUi (ui_api u) (ui_config u) (ui_readOnly u) (nodes_wrapper u)
    (nodes_videoContainer u) (nodes_fileButton u) (nodes_videoEl u)
    (nodes_videoPreloader u) c (container_media u) (document_reserialize u).

Definition set_media (ref : option nat) (m : list Element) (u : Ui) : Ui :=
  mkUi (ui_api u) (ui_config u) (ui_readOnly u) (nodes_wrapper u)
    (nodes_videoContainer u) (nodes_fileButton u) ref
    (nodes_videoPreloader u) (nodes_caption u) m (document_reserialize u).

(** The [CSS] getter: the host's classes and the tool's own. *)
Definition CSS_baseClass (api : API) : string := styles_block api.
Definition CSS_loading (api : API) : string := styles_loader api.
Definition CSS_input (api : API) : string := styles_input api.
Definition CSS_button (api : API) : string := styles_button api.
Definition CSS_wrapper : string := "video-tool".
Definition CSS_videoContainer : string := "video-tool__video".
Definition CSS_videoPreloader : string := "video-tool__video-preloader".
Definition CSS_videoEl : string := "video-tool__video-picture".
Definition CSS_caption : string := "video-tool__caption".

(** The class [`${this.CSS.wrapper}--${suffix}`]. *)
Definition modifier_class (suffix : string) : string :=
  CSS_wrapper +:+ "--" +:+ suffix.

Definition status_class (s : UiState.t) : string :=
  modifier_class (UiState.value s).

Section WithIcons.

(** [IconPicture] of the package [@codexteam/icons]: an SVG string. *)
Variable IconPicture : string.

(** The round trip of the document in which the [Ui] creates its nodes. *)
Variable reserialize : string -> string.

(** [Ui.createFileButton] *)
Definition createFileButton (api : API) (config : VideoConfig) : Element :=
  let button := make "div" [CSS_button api] [] in
  let button :=
    set_innerHTML
      (innerHTML_after_assignment reserialize
         (match buttonContent config with
          | Some html => html
          | None => IconPicture +:+ " " +:+ i18n_t api "Select an Video"
          end)) button in
  addEventListener "click" OnSelectFile button.

(** [Ui.constructor]. The [appendChild] calls build the tree
    wrapper > (video container > preloader), caption, file button. *)
Definition Ui_constructor (api : API) (config : VideoConfig)
    (readOnly : bool) : Ui :=
  {| ui_api := api;
     ui_config := config;
     ui_readOnly := readOnly;
     nodes_wrapper := make "div" [CSS_baseClass api; CSS_wrapper] [];
     nodes_videoContainer := make "div" [CSS_videoContainer] [];
     nodes_fileButton := createFileButton api config;
     nodes_videoEl := None;
     nodes_videoPreloader := make "div" [CSS_videoPreloader] [];
     nodes_caption :=
       set_placeholder (captionPlaceholder config)
         (make "div" [CSS_input api; CSS_caption]
            [("contentEditable", JBool (negb readOnly))]);
     container_media := [];
     document_reserialize := reserialize |}.

End WithIcons.

(** [Ui.applyTune]: the one call of [classList.toggle] on the wrapper, which
    throws on a tune name with white space in it. *)
Definition applyTune (tuneName : string) (status : bool) (u : Ui)
  : Outcome Ui :=
  match DOMTokenList_toggle (modifier_class tuneName) status
          (classList (nodes_wrapper u)) with
  | Return cl => Return (set_wrapper (set_classList cl (nodes_wrapper u)) u)
  | Throw e => Throw e
  end.

(** [Ui.toggleStatus]: for each member of the enum, the class of that state
    is toggled on the wrapper, on for [status] and off for the others. The
    three tokens are fixed and hold no white space, so that
    [classList.toggle] accepts them ([DOMTokenList_toggle_status_class]
    below) and its update is written directly. *)
Definition toggleStatus (status : UiState.t) (u : Ui) : Ui :=
  foldl
    (fun u state =>
       set_wrapper
         (set_classList
            (classList_toggle (status_class state) (UiState.eqb state status)
               (classList (nodes_wrapper u)))
            (nodes_wrapper u)) u)
    u UiState.members.

(** [Ui.render] (the wrapper it returns is [nodes_wrapper] of the result) *)
Definition Ui_render (u : Ui) : Ui := toggleStatus UiState.Empty u.

(** [Ui.showPreloader] *)
Definition showPreloader (u : Ui) : Ui := toggleStatus UiState.Uploading u.

(** [Ui.hidePreloader] *)
Definition hidePreloader (u : Ui) : Ui := toggleStatus UiState.Empty u.

(** The element [Ui.fillVideo] composes for [url], with its listener. *)
Definition fillVideo_element (url : string) : Element :=
  let tag := if test mp4_pattern url then "VIDEO" else "IMG" in
  let attrs := [("src", JStr url)] in
  let eventName := "load" in
  let '(attrs, eventName) :=
    if String.eqb tag "VIDEO"
    then ((attrs ++ [("playsinline", JBool true); ("controls", JBool true)])%list,
          "loadeddata")
    else (attrs, eventName) in
  addEventListener eventName (ToggleStatus UiState.Filled)
    (make tag [CSS_videoEl] attrs).

(** [Ui.fillVideo]: the new element becomes [nodes.videoEl] and is appended
    to the video container. *)
Definition fillVideo (url : string) (u : Ui) : Ui :=
  set_media (Some (length (container_media u)))
    (container_media u ++ [fillVideo_element url])%list u.

(** [Ui.fillCaption]; [nodes.caption] is never undefined, so the guard of
    the source always passes. The assignment to [innerHTML] goes through the
    document's parser: what the caption element reads afterwards is
    [innerHTML_after_assignment] of [text]. *)
Definition fillCaption (text : string) (u : Ui) : Ui :=
  set_caption
    (set_innerHTML
       (innerHTML_after_assignment (document_reserialize u) text)
       (nodes_caption u)) u.

(** *** What the browser does to the tool's elements *)

Definition run_listener (l : Listener) (u : Ui) : Ui :=
  match l with
  | ToggleStatus s => toggleStatus s u
  | OnSelectFile => u
  end.

(** The browser dispatches [eventName] on the [i]-th media element: its
    listeners for that event run in the order they were added. *)
Definition dispatchEvent (i : nat) (eventName : string) (u : Ui) : Ui :=
  match container_media u !! i with
  | None => u
  | Some el =>
      foldl
        (fun u '(ev, l) => if String.eqb ev eventName then run_listener l u else u)
        u (listeners el)
  end.

(** The browser learns the dimensions of the [i]-th media element; only a
    video element has [videoWidth] and [videoHeight] to update. *)
Definition loadMetadata (i : nat) (w h : float) (u : Ui) : Ui :=
  match container_media u !! i with
  | None => u
  | Some el =>
      if String.eqb (tagName el) "VIDEO"
      then set_media (nodes_videoEl u)
             (<[i := set_dimensions w h el]> (container_media u)) u
      else u
  end.

(** The status classes present on the wrapper, in the enum's order. *)
Definition active_statuses (u : Ui) : list UiState.t :=
  filter
    (fun s => classList_contains (status_class s) (classList (nodes_wrapper u)) = true)
    UiState.members.

(* ===================================================================== *)
(** ** [class VideoTool] of [index.ts] *)
(* ===================================================================== *)

(** [VideoToolData]: the record the tool keeps in [this._data] and hands to
    the host on [save]. *)
Record VideoToolData : Type := mkData {
  caption : JsVal;
  aspectRatio : JsVal;
  file : JsVal
}.

(** The argument of [api.notifier.show]. *)
Record Notification : Type := {
  message : string;
  style : string
}.

Record VideoTool : Type := mkTool {
  api : API;
  config : VideoConfig;
  ui : Ui;
  _data : VideoToolData;
  isCaptionEnabled : option bool
}.

(** The tool object together with the host surfaces its methods write to:
    the notifications shown, the lines logged to the console and the calls
    of user-defined tune actions, each oldest first. *)
Record World : Type := mkWorld {
  tool : VideoTool;
  notifier_shown : list Notification;
  console_logged : list (list string);
  actions_called : list string
}.

(** *** The state-and-exception monad of the controller's methods.
    A [throw] keeps the state reached so far, as mutation does in
    JavaScript. *)
Definition M (A : Type) : Type := World -> Outcome A * World.

Definition ret {A} (a : A) : M A := fun w => (Return a, w).

Definition throw {A} (e : Exception) : M A := fun w => (Throw e, w).

Definition bind {A B} (m : M A) (k : A -> M B) : M B :=
  fun w =>
    match m w with
    | (Return a, w') => k a w'
    | (Throw e, w') => (Throw e, w')
    end.

Definition lift {A} (o : Outcome A) : M A := fun w => (o, w).

Notation "x <- m ;; k" := (bind m (fun x => k))
  (at level 100, m at level 99, k at level 100, only parsing).
Notation "m ;;; k" := (bind m (fun _ => k))
  (at level 100, k at level 100, only parsing).

Definition get_tool : M VideoTool := fun w => (Return (tool w), w).

Definition modify_tool (f : VideoTool -> VideoTool) : M unit :=
  fun w =>
    (Return tt,
     mkWorld (f (tool w)) (notifier_shown w) (console_logged w)
       (actions_called w)).

Definition modify_ui (f : Ui -> Ui) : M unit :=
  modify_tool (fun t =>
    mkTool (api t) (config t) (f (ui t)) (_data t) (isCaptionEnabled t)).

(** A call of a method of [this.ui] that can throw: the exception goes on
    to the caller and the [Ui] stays as it was. *)
Definition try_ui (f : Ui -> Outcome Ui) : M unit :=
  fun w =>
    match f (ui (tool w)) with
    | Return u => modify_ui (fun _ => u) w
    | Throw e => (Throw e, w)
    end.

Definition modify_data (f : VideoToolData -> VideoToolData) : M unit :=
  modify_tool (fun t =>
    mkTool (api t) (config t) (ui t) (f (_data t)) (isCaptionEnabled t)).

Definition set_isCaptionEnabled (b : option bool) : M unit :=
  modify_tool (fun t => mkTool (api t) (config t) (ui t) (_data t) b).

Definition set_caption_field (v : JsVal) (d : VideoToolData) : VideoToolData :=
  mkData v (aspectRatio d) (file d).

Definition set_aspectRatio_field (v : JsVal) (d : VideoToolData)
  : VideoToolData :=
  mkData (caption d) v (file d).

Definition set_file_field (v : JsVal) (d : VideoToolData) : VideoToolData :=
  mkData (caption d) (aspectRatio d) v.

(** [console.log(a, b)] *)
Definition console_log (args : list string) : M unit :=
  fun w =>
    (Return tt,
     mkWorld (tool w) (notifier_shown w) (console_logged w ++ [args])%list
       (actions_called w)).

(** [this.api.notifier.show(n)] *)
Definition notifier_show (n : Notification) : M unit :=
  fun w =>
    (Return tt,
     mkWorld (tool w) (notifier_shown w ++ [n])%list (console_logged w)
       (actions_called w)).

(** A call of the user's [tune.action(tune.name)]; what the user's function
    does is outside the tool. *)
Definition call_action (tuneName : string) : M unit :=
  fun w =>
    (Return tt,
     mkWorld (tool w) (notifier_shown w) (console_logged w)
       (actions_called w ++ [tuneName])%list).

(** [VideoTool.validate]: [!!savedData.file.url]. It reads no state. *)
Definition validate (savedData : JsVal) : Outcome bool :=
  match Get savedData "file" with
  | Throw e => Throw e
  | Return f =>
      match Get f "url" with
      | Throw e => Throw e
      | Return url => Return (ToBoolean url)
      end
  end.

(** [el?.videoWidth] and [el?.videoHeight] for [el = ui.nodes.videoEl]:
    undefined when there is no element or the element has no such
    property. *)
Definition videoEl_prop (prop : Element -> option float) (u : Ui)
  : option float :=
  match nodes_videoEl u with
  | None => None
  | Some i =>
      match container_media u !! i with
      | None => None
      | Some el => prop el
      end
  end.

(** [VideoTool.save] *)
Definition save : M VideoToolData :=
  t <- get_tool ;;
  modify_data (set_caption_field (JStr (innerHTML (nodes_caption (ui t))))) ;;;
  modify_data
    (set_aspectRatio_field
       (JNum (nullish (videoEl_prop videoWidth (ui t)) 1
              / nullish (videoEl_prop videoHeight (ui t)) 1)%float)) ;;;
  t <- get_tool ;;
  ret (_data t).

(** [VideoTool.tunes] (static): no built-in tune. *)
Definition tunes : list ActionConfig := [].

(** [VideoTool.uploadingFailed] *)
Definition uploadingFailed (errorText : string) : M unit :=
  console_log ["Video Tool: uploading failed because of"; errorText] ;;;
  t <- get_tool ;;
  notifier_show
    {| message := i18n_t (api t) "Couldn’t upload video"; style := "error" |} ;;;
  modify_ui hidePreloader.

(** [VideoTool.tuneToggled] *)
Definition tuneToggled (tuneName : string) (state : bool) : M unit :=
  if String.eqb tuneName "caption"
  then
    try_ui (applyTune tuneName state) ;;;
    if negb state
    then
      modify_data (set_caption_field (JStr "")) ;;;
      modify_ui (fillCaption "")
    else ret tt
  else
    throw (Error ("There is no tune with name " +:+ tuneName
                  +:+ " in Video Tool")).

Section WithRuntime.

(** [JSON.stringify] and the number-to-string conversion of the JavaScript
    runtime, and two icons of [@codexteam/icons]. *)
Variable JSON_stringify : JsVal -> string.
Variable Number_toString : float -> string.
Variable IconPicture : string.
Variable IconText : string.

(** The parse-then-serialise round trip of the document the tool lives
    in. *)
Variable reserialize : string -> string.

(** ToString, applied where a value is used as a DOM string. *)
Definition ToString (v : JsVal) : string :=
  match v with
  | JUndefined => "undefined"
  | JNull => "null"
  | JBool true => "true"
  | JBool false => "false"
  | JNum x => Number_toString x
  | JStr s => s
  | JObj _ => "[object Object]"
  end.

(** The setter [set video(file)]. [fillVideo] uses its argument as a string
    (in the pattern test and as [src]). *)
Definition set_video (f : JsVal) : M unit :=
  modify_data (set_file_field (js_or f (JObj [("url", JStr "")]))) ;;;
  if ToBoolean f
  then
    url <- lift (Get f "url") ;;
    if ToBoolean url then modify_ui (fillVideo (ToString url)) else ret tt
  else ret tt.

(** The setter [set data(data)]. *)
Definition set_data (data : JsVal) : M unit :=
  f <- lift (Get data "file") ;;
  set_video f ;;;
  c <- lift (Get data "caption") ;;
  modify_data (set_caption_field (js_or c (JStr ""))) ;;;
  t <- get_tool ;;
  modify_ui (fillCaption (ToString (caption (_data t)))) ;;;
  r <- lift (Get data "aspectRatio") ;;
  modify_data (set_aspectRatio_field (js_or r (JNum 1))) ;;;
  t <- get_tool ;;
  match features_caption (config t) with
  | Some (CaptionBool true) =>
      c <- lift (Get data "caption") ;;
      try_ui (applyTune "caption" (ToBoolean (js_or c (JStr ""))))
  | _ => ret tt
  end.

(** [VideoTool.constructor]: the configuration with its defaults, the [Ui],
    the default record, then [this.data = data]. The uploader it also
    creates is outside this model; its callbacks are [onUpload] and
    [uploadingFailed] below. *)
Definition VideoTool_constructor (data : JsVal) (cfg : UserConfig)
    (a : API) (readOnly : bool) : Outcome unit * World :=
  let c :=
    {| captionPlaceholder :=
         i18n_t a (default "Caption" (user_captionPlaceholder cfg));
       buttonContent := user_buttonContent cfg;
       actions := user_actions cfg;
       features_caption := default None (user_features cfg) |} in
  let t :=
    {| api := a;
       config := c;
       ui := Ui_constructor IconPicture reserialize a c readOnly;
       _data :=
         {| caption := JStr "";
            aspectRatio := JNum 1;
            file := JObj [("url", JStr "")] |};
       isCaptionEnabled := None |} in
  set_data data (mkWorld t [] [] []).

(** [VideoTool.render]; the element it returns is the wrapper. *)
Definition render : M Element :=
  t <- get_tool ;;
  (if match features_caption (config t) with
      | Some (CaptionBool true) => true
      | None => true
      | Some CaptionOptional => ToBoolean (caption (_data t))
      | Some (CaptionBool false) => false
      end
   then
     set_isCaptionEnabled (Some true) ;;;
     try_ui (applyTune "caption" true)
   else ret tt) ;;;
  modify_ui Ui_render ;;;
  t <- get_tool ;;
  ret (nodes_wrapper (ui t)).

(** [VideoTool.onUpload] *)
Definition onUpload (response : JsVal) : M unit :=
  success <- lift (Get response "success") ;;
  accepted <-
    (if ToBoolean success
     then f <- lift (Get response "file") ;; ret (ToBoolean f)
     else ret false) ;;
  if accepted : bool
  then
    f <- lift (Get response "file") ;;
    set_video f
  else
    uploadingFailed ("incorrect response: " +:+ JSON_stringify response).

(** *** [VideoTool.renderSettings] *)

(** The tunes offered: the built-in ones, the user's actions, and a caption
    toggle when the caption feature is ['optional']; a tune named [caption]
    is dropped when the feature is [false]. *)
Definition availableTunes (c : VideoConfig) : list ActionConfig :=
  let all := (tunes ++ default [] (actions c))%list in
  let all :=
    match features_caption c with
    | Some CaptionOptional =>
        (all ++ [ {| name := "caption"; icon := IconText;
                     title := "With caption"; toggle := Some true;
                     has_action := false |} ])%list
    | _ => all
    end in
  filter
    (fun tune =>
       (if String.eqb (name tune) "caption"
        then match features_caption c with
             | Some (CaptionBool false) => false
             | _ => true
             end
        else true) = true)
    all.

(** The local function [isActive] of [renderSettings]. *)
Definition isActive (t : VideoTool) (tune : ActionConfig) : bool :=
  if String.eqb (name tune) "caption"
  then default false (isCaptionEnabled t)
  else false.

(** The [onActivate] callback of a menu entry. *)
Definition onActivate (tune : ActionConfig) : M unit :=
  if has_action tune
  then call_action (name tune)
  else
    t <- get_tool ;;
    let newState := negb (isActive t tune) in
    if String.eqb (name tune) "caption"
    then
      let enabled := negb (default false (isCaptionEnabled t)) in
      set_isCaptionEnabled (Some enabled) ;;;
      tuneToggled (name tune) enabled
    else tuneToggled (name tune) newState.

End WithRuntime.

(* ===================================================================== *)
(** ** Runs of the presentation layer

    What can happen to a [Ui] between its construction and any later moment:
    the calls the controller makes and the events of the browser. *)
(* ===================================================================== *)

Inductive UiOp : Type :=
| OpRender
| OpShowPreloader
| OpHidePreloader
| OpFillVideo (url : string)
| OpFillCaption (text : string)
| OpApplyTune (tuneName : string) (status : bool)
| OpDispatch (i : nat) (eventName : string)
| OpLoadMetadata (i : nat) (w h : float).

(** The [Ui] after one call; a call of [applyTune] that throws leaves it as
    it was. *)
Definition ui_step (op : UiOp) (u : Ui) : Ui :=
  match op with
  | OpRender => Ui_render u
  | OpShowPreloader => showPreloader u
  | OpHidePreloader => hidePreloader u
  | OpFillVideo url => fillVideo url u
  | OpFillCaption text => fillCaption text u
  | OpApplyTune tuneName status =>
      match applyTune tuneName status u with
      | Return u' => u'
      | Throw _ => u
      end
  | OpDispatch i eventName => dispatchEvent i eventName u
  | OpLoadMetadata i w h => loadMetadata i w h u
  end.

Definition ui_run (ops : list UiOp) (u : Ui) : Ui :=
  foldl (fun u op => ui_step op u) u ops.

(** The calls that force a status. *)
Definition forces_status (op : UiOp) : bool :=
  match op with
  | OpRender | OpShowPreloader | OpHidePreloader => true
  | _ => false
  end.

Definition is_dispatch (op : UiOp) : bool :=
  match op with
  | OpDispatch _ _ => true
  | _ => false
  end.

Definition is_fillVideo (op : UiOp) : bool :=
  match op with
  | OpFillVideo _ => true
  | _ => false
  end.

(** The dispatch of [eventName] on the [i]-th media element. *)
Definition is_dispatch_of (i : nat) (eventName : string) (op : UiOp) : bool :=
  match op with
  | OpDispatch j ev => Nat.eqb j i && String.eqb ev eventName
  | _ => false
  end.

(** A tune name that is none of the three status values; the controller
    only ever passes ['caption']. *)
Definition tune_name_ok (tuneName : string) : bool :=
  forallb (fun s => negb (String.eqb tuneName (UiState.value s)))
    UiState.members.

Definition tune_ok (op : UiOp) : bool :=
  match op with
  | OpApplyTune tuneName _ => tune_name_ok tuneName
  | _ => true
  end.

(** The [Ui] that [applyTune] returns when it returns ([applyTune_spec]
    below). *)
Definition tune_applied (tuneName : string) (status : bool) (u : Ui) : Ui :=
  set_wrapper
    (set_classList
       (classList_toggle (modifier_class tuneName) status
          (classList (nodes_wrapper u)))
       (nodes_wrapper u)) u.

(** Whether the wrapper carries the class of status [s]. *)
Definition has_status (s : UiState.t) (u : Ui) : bool :=
  classList_contains (status_class s) (classList (nodes_wrapper u)).

(** [s] ends in [w]. *)
Definition ends_with (w s : string) : Prop := exists p, s = p +:+ w.

(** The two elements [fillVideo] can compose. *)
Definition video_element (url : string) : Element :=
  {| tagName := "VIDEO";
     classList := list_to_set [CSS_videoEl];
     attributes :=
       [("src", JStr url); ("playsinline", JBool true);
        ("controls", JBool true)];
     dataset_placeholder := None;
     innerHTML := "";
     listeners := [("loadeddata", ToggleStatus UiState.Filled)];
     videoWidth := Some 0%float;
     videoHeight := Some 0%float |}.

Definition image_element (url : string) : Element :=
  {| tagName := "IMG";
     classList := list_to_set [CSS_videoEl];
     attributes := [("src", JStr url)];
     dataset_placeholder := None;
     innerHTML := "";
     listeners := [("load", ToggleStatus UiState.Filled)];
     videoWidth := None;
     videoHeight := None |}.

(* ===================================================================== *)
(** ** A concrete host, for the examples

    The examples below run the tool in this host. The text that
    [JSON.stringify] and the number conversion produce only reaches the
    console and the DOM; every example holds for any choice of them. *)
(* ===================================================================== *)

Definition example_api : API :=
  {| i18n_t := fun text => text;
     styles_block := "cdx-block";
     styles_loader := "cdx-loader";
     styles_input := "cdx-input";
     styles_button := "cdx-button" |}.

Definition example_config : UserConfig :=
  {| user_captionPlaceholder := None;
     user_buttonContent := None;
     user_actions := None;
     user_features := None |}.

Definition example_JSON_stringify (v : JsVal) : string := "<json>".
Definition example_Number_toString (x : float) : string := "<number>".
Definition example_IconPicture : string := "<svg>".

(** The round trip of the example host's document. It is the browser's on
    printable ASCII text that holds no less-than sign and no character
    reference: an ampersand is read back as [&amp;], a greater-than sign as
    [&gt;], any other character as itself. *)
Fixpoint example_reserialize (markup : string) : string :=
  match markup with
  | EmptyString => EmptyString
  | String c rest =>
      if Ascii.eqb c "&" then "&amp;" +:+ example_reserialize rest
      else if Ascii.eqb c ">" then "&gt;" +:+ example_reserialize rest
      else String c (example_reserialize rest)
  end.

(** [new VideoTool({ data, config: {}, api, readOnly: false })] in the
    example host. *)
Definition example_tool (data : JsVal) : Outcome unit * World :=
  VideoTool_constructor example_Number_toString example_IconPicture
    example_reserialize data example_config example_api false.

(** [m] run in the world a constructor call left behind. *)
Definition and_then {A} (before : Outcome unit * World) (m : M A)
  : Outcome A * World :=
  m (snd before).

(** Saved data with an [.mp4] source and with an image source. *)
Definition saved_mp4 : JsVal :=
  JObj [("file", JObj [("url", JStr "https://x/a.mp4")]);
        ("caption", JStr "hi");
        ("aspectRatio", JNum 1.5)].

Definition saved_png : JsVal :=
  JObj [("file", JObj [("url", JStr "https://x/a.png"); ("id", JNum 7)]);
        ("caption", JStr "hi");
        ("aspectRatio", JNum 2)].

(* ===================================================================== *)
(** ** The settings menu, uploads and paste

    The rest of [index.ts]: the menu [renderSettings] returns, and the
    methods that hand work to the uploader. [uploader.ts] is not part of
    this model: a call of one of its three methods is recorded in the
    [Session], and what it does later reaches the tool as a call of the
    [onPreview] callback, of [onUpload] or of [uploadingFailed]. *)
(* ===================================================================== *)

(** An entry of the [TunesMenuConfig] that [renderSettings] returns; its
    [onActivate] is [onActivate tune]. *)
Record MenuEntry : Type := {
  entry_icon : string;
  entry_label : string;
  entry_name : string;
  entry_toggle : option bool;
  entry_isActive : bool
}.

(** [VideoTool.renderSettings] *)
Definition renderSettings (IconText : string) (t : VideoTool)
  : list MenuEntry :=
  map
    (fun tune =>
       {| entry_icon := icon tune;
          entry_label := i18n_t (api t) (title tune);
          entry_name := name tune;
          entry_toggle := toggle tune;
          entry_isActive := isActive t tune |})
    (availableTunes IconText (config t)).

(** The record [save] returns, as the object the host receives. *)
Definition data_object (d : VideoToolData) : JsVal :=
  JObj [("caption", caption d); ("aspectRatio", aspectRatio d);
        ("file", file d)].

(** The content of a [Blob]. *)
Definition Blob : Type := string.

(** The calls the tool makes on its uploader: [uploadByUrl(url)],
    [uploadByFile(file, { onPreview })] and
    [uploadSelectedFile({ onPreview })]. *)
Inductive UploaderCall : Type :=
| UploadByUrl (url : string)
| UploadByFile (blob : Blob)
| UploadSelectedFile.

Record Session : Type := mkSession {
  world : World;
  uploader_calls : list UploaderCall
}.

(** [event.type] and the part of [event.detail] that [onPaste] reads:
    [detail.data.src] of a pasted tag, [detail.data] of a pattern match,
    [detail.file] of a pasted file. *)
Inductive PasteEvent : Type :=
| PasteTag (src : string)
| PastePattern (data : string)
| PasteFile (blob : Blob).

(** A controller method run in the session's world. *)
Definition in_world {A} (m : M A) (s : Session) : Outcome A * Session :=
  (fst (m (world s)), mkSession (snd (m (world s))) (uploader_calls s)).

Definition call_uploader (c : UploaderCall) (s : Session) : Session :=
  mkSession (world s) (uploader_calls s ++ [c])%list.

(** [VideoTool.uploadUrl] *)
Definition uploadUrl (url : string) (s : Session) : Session :=
  call_uploader (UploadByUrl url) (snd (in_world (modify_ui showPreloader) s)).

(** [VideoTool.uploadFile]; the preloader is shown only when the uploader
    calls [onPreview]. *)
Definition uploadFile (blob : Blob) (s : Session) : Session :=
  call_uploader (UploadByFile blob) s.

(** The [onPreview] callback of [uploadFile] and of the constructor's
    [onSelectFile]: [() => { this.ui.showPreloader() }]. *)
Definition onPreview (s : Session) : Session :=
  snd (in_world (modify_ui showPreloader) s).

(** The [onSelectFile] callback the constructor gives the [Ui]. *)
Definition onSelectFile (s : Session) : Session :=
  call_uploader UploadSelectedFile s.

(** A listener of the [Ui] run by the controller's session. *)
Definition session_listener (l : Listener) (s : Session) : Session :=
  match l with
  | OnSelectFile => onSelectFile s
  | ToggleStatus status =>
      snd (in_world (modify_ui (toggleStatus status)) s)
  end.

(** [VideoTool.appendCallback]: [this.ui.nodes.fileButton.click()] runs the
    button's [click] listeners. *)
Definition appendCallback (s : Session) : Session :=
  foldl
    (fun s '(ev, l) => if String.eqb ev "click" then session_listener l s else s)
    s (listeners (nodes_fileButton (ui (tool (world s))))).

Section WithNetwork.

Variable JSON_stringify : JsVal -> string.
Variable Number_toString : float -> string.

(** [(await fetch(src)).blob()]: the blob behind a url, or the rejection
    the [await] throws. *)
Variable fetch_blob : string -> Outcome Blob.

(** [VideoTool.onPaste]. [/^blob:/.test(src)] holds when [src] starts with
    [blob:]. A paste event of any other type does nothing; the type of
    [PasteEvent] has the three the [switch] handles. *)
Definition onPaste (event : PasteEvent) (s : Session)
  : Outcome unit * Session :=
  match event with
  | PasteTag src =>
      if String.prefix "blob:" src
      then
        match fetch_blob src with
        | Return blob => (Return tt, uploadFile blob s)
        | Throw e => (Throw e, s)
        end
      else (Return tt, uploadUrl src s)
  | PastePattern url => (Return tt, uploadUrl url s)
  | PasteFile blob => (Return tt, uploadFile blob s)
  end.

(** *** Runs of the controller

    What the host, the uploader, the browser and the user can do to a tool
    once it is constructed. *)
Inductive ToolOp : Type :=
| DoRender
| DoSave
| DoActivate (tune : ActionConfig)
| DoAppend
| DoPaste (event : PasteEvent)
| CallPreview
| CallOnUpload (response : JsVal)
| CallOnError (errorText : string)
| BrowserDispatch (i : nat) (eventName : string)
| BrowserMetadata (i : nat) (w h : float)
| UserEditsCaption (html : string).

(** One step; an exception thrown by a method leaves the state the method
    had reached. After [UserEditsCaption html] the caption element reads
    [html]. *)
Definition tool_step (op : ToolOp) (s : Session) : Session :=
  match op with
  | DoRender => snd (in_world render s)
  | DoSave => snd (in_world save s)
  | DoActivate tune => snd (in_world (onActivate tune) s)
  | DoAppend => appendCallback s
  | DoPaste event => snd (onPaste event s)
  | CallPreview => onPreview s
  | CallOnUpload response =>
      snd (in_world (onUpload JSON_stringify Number_toString response) s)
  | CallOnError errorText => snd (in_world (uploadingFailed errorText) s)
  | BrowserDispatch i eventName =>
      snd (in_world (modify_ui (dispatchEvent i eventName)) s)
  | BrowserMetadata i w h =>
      snd (in_world (modify_ui (loadMetadata i w h)) s)
  | UserEditsCaption html =>
      snd (in_world
             (modify_ui (fun u =>
                set_caption (set_innerHTML html (nodes_caption u)) u)) s)
  end.

Definition tool_run (ops : list ToolOp) (s : Session) : Session :=
  foldl (fun s op => tool_step op s) s ops.

(** [new VideoTool(...)] as the start of a session. *)
Definition new_session (IconPicture : string)
    (reserialize : string -> string) (data : JsVal)
    (cfg : UserConfig) (a : API) (readOnly : bool) : Session :=
  mkSession
    (snd (VideoTool_constructor Number_toString IconPicture reserialize data
            cfg a readOnly))
    [].

End WithNetwork.

(** Whether the uploader's answer [response] takes the failure path of
    [onUpload]: it can be read, and its [success] or its [file] is falsy. *)
Definition response_rejected (response : JsVal) : bool :=
  match Get response "success", Get response "file" with
  | Return success, Return f => negb (ToBoolean success && ToBoolean f)
  | _, _ => false
  end.

(** Whether an accepted [response] carries a url to display. *)
Definition response_displayed (response : JsVal) : bool :=
  match Get response "success", Get response "file" with
  | Return success, Return f =>
      ToBoolean success && ToBoolean f &&
      match Get f "url" with
      | Return url => ToBoolean url
      | Throw _ => false
      end
  | _, _ => false
  end.

(** The steps that show the failure notification, and the steps that append
    a media element. *)
Definition notifies (op : ToolOp) : bool :=
  match op with
  | CallOnError _ => true
  | CallOnUpload response => response_rejected response
  | _ => false
  end.

Definition displays (op : ToolOp) : bool :=
  match op with
  | CallOnUpload response => response_displayed response
  | _ => false
  end.

(** [nodes.videoEl] refers to the newest media element, and is undefined
    when there is none. *)
Definition videoEl_is_newest (u : Ui) : Prop :=
  nodes_videoEl u =
  match container_media u with
  | [] => None
  | _ :: rest => Some (length rest)
  end.

(** The world with its [Ui] and its record changed. *)
Definition update_world (fu : Ui -> Ui) (fd : VideoToolData -> VideoToolData)
    (w : World) : World :=
  mkWorld
    (mkTool (api (tool w)) (config (tool w)) (fu (ui (tool w)))
       (fd (_data (tool w))) (isCaptionEnabled (tool w)))
    (notifier_shown w) (console_logged w) (actions_called w).

(** The notification of [uploadingFailed] in a host with API [a]. *)
Definition failure_notification (a : API) : Notification :=
  {| message := i18n_t a "Couldn’t upload video"; style := "error" |}.

(** How many steps of a run satisfy [p]. *)
Definition count_ops (p : ToolOp -> bool) (ops : list ToolOp) : nat :=
  length (List.filter p ops).

(** The steps after which the status is one the step has set: [render],
    the preview callback, a failed upload, and a paste uploaded by url. *)
Definition sets_status (op : ToolOp) : bool :=
  match op with
  | DoRender | CallPreview | CallOnError _ => true
  | CallOnUpload response => response_rejected response
  | DoPaste (PastePattern _) => true
  | DoPaste (PasteTag src) => negb (String.prefix "blob:" src)
  | _ => false
  end.

Definition is_browser_dispatch (op : ToolOp) : bool :=
  match op with
  | BrowserDispatch _ _ => true
  | _ => false
  end.

Section WithFetch.

Variable fetch_blob : string -> Outcome Blob.

(** The request a step hands to the uploader, if any. *)
Definition request_of (op : ToolOp) : option UploaderCall :=
  match op with
  | DoAppend => Some UploadSelectedFile
  | DoPaste (PastePattern url) => Some (UploadByUrl url)
  | DoPaste (PasteFile blob) => Some (UploadByFile blob)
  | DoPaste (PasteTag src) =>
      if String.prefix "blob:" src
      then match fetch_blob src with
           | Return blob => Some (UploadByFile blob)
           | Throw _ => None
           end
      else Some (UploadByUrl src)
  | _ => None
  end.

(** What one step does to each part of the session. *)
Definition step_effect (op : ToolOp) (s s' : Session) : Prop :=
  let t := tool (world s) in
  let t' := tool (world s') in
  api t' = api t /\
  nodes_fileButton (ui t') = nodes_fileButton (ui t) /\
  notifier_shown (world s')
  = (notifier_shown (world s)
       ++ if notifies op then [failure_notification (api t)] else [])%list /\
  uploader_calls s'
  = (uploader_calls s ++ option_list (request_of op))%list /\
  (ToBoolean (file (_data t)) = true -> ToBoolean (file (_data t')) = true) /\
  (if displays op
   then exists el,
          container_media (ui t') = (container_media (ui t) ++ [el])%list /\
          nodes_videoEl (ui t') = Some (length (container_media (ui t)))
   else map attributes (container_media (ui t'))
        = map attributes (container_media (ui t)) /\
        nodes_videoEl (ui t') = nodes_videoEl (ui t)) /\
  (active_statuses (ui t') = active_statuses (ui t) \/
   exists st, active_statuses (ui t') = [st]) /\
  (sets_status op = true -> exists st, active_statuses (ui t') = [st]) /\
  (sets_status op = false -> is_browser_dispatch op = false ->
   active_statuses (ui t') = active_statuses (ui t)).

End WithFetch.

(** The [Ui] of the example host, and a session in it. *)
Definition example_ui : Ui :=
  Ui_constructor example_IconPicture example_reserialize example_api
    {| captionPlaceholder := "Caption"; buttonContent := None;
       actions := None; features_caption := None |} false.

Definition example_fetch_blob (src : string) : Outcome Blob :=
  Return "<blob>".

Definition example_session (data : JsVal) : Session :=
  new_session example_Number_toString example_IconPicture
    example_reserialize data example_config example_api false.

Definition example_run (ops : list ToolOp) (s : Session) : Session :=
  tool_run example_JSON_stringify example_Number_toString example_fetch_blob
    ops s.

(* ===================================================================== *)
(** ** Lemmas on the patterns *)
(* ===================================================================== *)

Lemma matches_none s : matches ReNone s = false.
Proof. induction s as [|c s IH]; [reflexivity | exact IH]. Qed.

Lemma matches_alt r1 r2 s : matches (ReAlt r1 r2) s = matches r1 s || matches r2 s.
Proof.
  revert r1 r2. induction s as [|c s IH]; intros r1 r2; [reflexivity|].
  cbn. apply IH.
Qed.

Lemma matches_seq_none r s : matches (ReSeq ReNone r) s = false.
Proof.
  induction s as [|c s IH]; [reflexivity|].
  cbn. rewrite matches_alt, IH, matches_none. reflexivity.
Qed.

Lemma matches_seq_eps r s : matches (ReSeq ReEps r) s = matches r s.
Proof.
  destruct s as [|c s]; [reflexivity|].
  cbn. rewrite matches_alt, matches_seq_none. reflexivity.
Qed.

Lemma matches_lit w s : matches (re_lit w) s = true <-> s = w.
Proof.
  revert s. induction w as [|a w IH]; intros s.
  - destruct s as [|c s]; cbn; [tauto|]. rewrite matches_none. split; discriminate.
  - destruct s as [|c s]; cbn [matches re_lit nullable re_chr deriv andb].
    + split; discriminate.
    + rewrite matches_alt, matches_none, orb_false_r.
      destruct (Ascii.eqb_spec a c) as [->|Hne].
      * rewrite matches_seq_eps, IH. split; [intros ->; reflexivity | intros [= ->]; reflexivity].
      * rewrite matches_seq_none. split; [discriminate | intros [= -> ->]; contradiction].
Qed.

Lemma test_lit w s : test (re_lit w) s = true <-> ends_with w s.
Proof.
  unfold ends_with. induction s as [|c s IH]; cbn [test].
  - rewrite orb_false_r, matches_lit. split.
    + intros <-. exists "". reflexivity.
    + intros [p Hp]. destruct p; cbn in Hp; [exact Hp | discriminate].
  - rewrite orb_true_iff, matches_lit, IH. split.
    + intros [<- | [p ->]]; [exists ""; reflexivity | exists (String c p); reflexivity].
    + intros [p Hp]. destruct p as [|c' p]; cbn in Hp; [left; exact Hp|].
      right. injection Hp as -> ->. exists p. reflexivity.
Qed.

(* ===================================================================== *)
(** ** Lemmas on the status classes of the wrapper *)
(* ===================================================================== *)

Lemma modifier_class_inj a b : modifier_class a = modifier_class b -> a = b.
Proof. unfold modifier_class, CSS_wrapper. cbn. intros H. by simplify_eq. Qed.

Lemma has_status_toggleStatus s s' u :
  has_status s' (toggleStatus s u) = UiState.eqb s' s.
Proof.
  unfold has_status, classList_contains, toggleStatus, UiState.members. cbn.
  unfold classList_toggle.
  destruct s, s'; cbn; (apply bool_decide_eq_true + apply bool_decide_eq_false);
    unfold status_class, modifier_class; cbn; set_solver.
Qed.

Lemma active_statuses_spec u :
  active_statuses u = filter (fun s => has_status s u = true) UiState.members.
Proof. reflexivity. Qed.

Lemma toggleStatus_active s u : active_statuses (toggleStatus s u) = [s].
Proof.
  rewrite active_statuses_spec. unfold UiState.members.
  rewrite !filter_cons, filter_nil, !has_status_toggleStatus.
  by destruct s.
Qed.

Lemma DOMTokenList_toggle_status_class s b cl :
  DOMTokenList_toggle (status_class s) b cl
  = Return (classList_toggle (status_class s) b cl).
Proof. by destruct s. Qed.

Lemma modifier_class_whitespace n :
  contains_ascii_whitespace (modifier_class n) = contains_ascii_whitespace n.
Proof. reflexivity. Qed.

Lemma applyTune_spec n b u :
  applyTune n b u =
  if contains_ascii_whitespace n
  then Throw (DOMException "InvalidCharacterError")
  else Return (tune_applied n b u).
Proof.
  unfold applyTune, DOMTokenList_toggle, tune_applied.
  rewrite modifier_class_whitespace.
  by destruct (contains_ascii_whitespace n).
Qed.

Lemma try_ui_applyTune_caption b :
  try_ui (applyTune "caption" b) = modify_ui (tune_applied "caption" b).
Proof. reflexivity. Qed.

Lemma ui_step_applyTune n b u :
  ui_step (OpApplyTune n b) u = tune_applied n b u \/
  ui_step (OpApplyTune n b) u = u.
Proof.
  cbn [ui_step]. rewrite applyTune_spec.
  destruct (contains_ascii_whitespace n); [by right | by left].
Qed.

Lemma has_status_applyTune n b s u :
  tune_name_ok n = true -> has_status s (tune_applied n b u) = has_status s u.
Proof.
  intros Hok. unfold has_status, tune_applied, classList_contains. cbn.
  assert (modifier_class n ≠ status_class s) as Hne.
  { intros H%modifier_class_inj. subst n. by destruct s. }
  unfold classList_toggle. apply bool_decide_ext. destruct b; set_solver.
Qed.

Lemma active_statuses_ext u u' :
  (forall s, has_status s u' = has_status s u) ->
  active_statuses u' = active_statuses u.
Proof.
  intros H. rewrite !active_statuses_spec. unfold UiState.members.
  rewrite !filter_cons, !filter_nil, !H. reflexivity.
Qed.

Lemma active_statuses_wrapper u u' :
  nodes_wrapper u' = nodes_wrapper u -> active_statuses u' = active_statuses u.
Proof. intros H. unfold active_statuses. rewrite H. reflexivity. Qed.

Lemma active_statuses_applyTune n b u :
  tune_name_ok n = true ->
  active_statuses (tune_applied n b u) = active_statuses u.
Proof.
  intros Hok. apply active_statuses_ext. intros s.
  by apply has_status_applyTune.
Qed.

Lemma nodes_wrapper_loadMetadata i w h u :
  nodes_wrapper (loadMetadata i w h u) = nodes_wrapper u.
Proof.
  unfold loadMetadata. destruct (container_media u !! i) as [el|]; [|reflexivity].
  destruct (String.eqb (tagName el) "VIDEO"); reflexivity.
Qed.

Lemma run_listener_cases l u :
  active_statuses (run_listener l u) = active_statuses u \/
  exists s, active_statuses (run_listener l u) = [s].
Proof.
  destruct l as [s|]; cbn; [right; exists s; apply toggleStatus_active | by left].
Qed.

Lemma dispatchEvent_cases i ev u :
  active_statuses (dispatchEvent i ev u) = active_statuses u \/
  exists s, active_statuses (dispatchEvent i ev u) = [s].
Proof.
  unfold dispatchEvent. destruct (container_media u !! i) as [el|]; [|by left].
  generalize (listeners el) as ls. clear el. intros ls. revert u.
  induction ls as [|[ev' l] ls IH]; intros u; [by left|].
  cbn [foldl]. destruct (String.eqb ev' ev).
  - destruct (IH (run_listener l u)) as [Heq | Hone]; [|by right].
    rewrite Heq. apply run_listener_cases.
  - apply IH.
Qed.

Lemma ui_step_forces op u :
  forces_status op = true -> exists s, active_statuses (ui_step op u) = [s].
Proof.
  destruct op; try discriminate; intros _.
  - exists UiState.Empty. exact (toggleStatus_active _ u).
  - exists UiState.Uploading. exact (toggleStatus_active _ u).
  - exists UiState.Empty. exact (toggleStatus_active _ u).
Qed.

Lemma ui_step_quiet op u :
  tune_ok op = true -> forces_status op = false -> is_dispatch op = false ->
  active_statuses (ui_step op u) = active_statuses u.
Proof.
  destruct op; try discriminate; intros Hok _ _; cbn [ui_step].
  - by apply active_statuses_wrapper.
  - by apply active_statuses_wrapper.
  - destruct (ui_step_applyTune tuneName status u) as [H | H];
      cbn [ui_step] in H; rewrite H; [by apply active_statuses_applyTune|done].
  - apply active_statuses_wrapper, nodes_wrapper_loadMetadata.
Qed.

Lemma ui_step_cases op u :
  tune_ok op = true ->
  active_statuses (ui_step op u) = active_statuses u \/
  exists s, active_statuses (ui_step op u) = [s].
Proof.
  intros Hok. destruct (forces_status op) eqn:Hf.
  - right. by apply ui_step_forces.
  - destruct (is_dispatch op) eqn:Hd.
    + destruct op; try discriminate. apply dispatchEvent_cases.
    + left. by apply ui_step_quiet.
Qed.

Lemma ui_run_snoc ops op u :
  ui_run (ops ++ [op]) u = ui_step op (ui_run ops u).
Proof. unfold ui_run. by rewrite foldl_app. Qed.

(** The three facts a run keeps about the status classes, given how they
    stood at its start. *)
Lemma ui_run_statuses ops u :
  forallb tune_ok ops = true ->
  (length (active_statuses u) <= 1 ->
   length (active_statuses (ui_run ops u)) <= 1) /\
  (existsb forces_status ops = true ->
   length (active_statuses (ui_run ops u)) = 1) /\
  (existsb forces_status ops = false -> existsb is_dispatch ops = false ->
   active_statuses (ui_run ops u) = active_statuses u).
Proof.
  induction ops as [|op ops IH] using rev_ind; intros Hok.
  - cbn. split; [tauto|]. split; [discriminate | reflexivity].
  - rewrite forallb_app in Hok. cbn in Hok.
    apply andb_prop in Hok as [Hops Hop]. rewrite andb_true_r in Hop.
    destruct (IH Hops) as (IH1 & IH2 & IH3). clear IH.
    rewrite ui_run_snoc, !existsb_app. cbn [existsb]. rewrite !orb_false_r.
    destruct (ui_step_cases op (ui_run ops u) Hop) as [Heq | [s Hs]].
    + rewrite Heq. split; [exact IH1|]. split.
      * intros [H | H]%orb_prop; [by apply IH2|].
        destruct (ui_step_forces op (ui_run ops u) H) as [s Hs].
        rewrite <- Heq, Hs. reflexivity.
      * intros [H1 H2]%orb_false_elim [H3 H4]%orb_false_elim. by apply IH3.
    + rewrite Hs. cbn [length]. split; [lia|]. split; [reflexivity|].
      intros [H1 H2]%orb_false_elim [H3 H4]%orb_false_elim.
      rewrite <- Hs, ui_step_quiet by done. by apply IH3.
Qed.

Lemma active_statuses_constructor icon rs a c ro :
  forallb (fun s => negb (String.eqb (styles_block a) (status_class s)))
    UiState.members = true ->
  active_statuses (Ui_constructor icon rs a c ro) = [].
Proof.
  intros Hb. cbn in Hb.
  repeat (apply andb_prop in Hb as [?%negb_true_iff%String.eqb_neq Hb]).
  rewrite active_statuses_spec. unfold UiState.members.
  rewrite !filter_cons, filter_nil.
  unfold has_status, classList_contains, Ui_constructor, make. cbn.
  unfold CSS_baseClass.
  rewrite !decide_False; [reflexivity | ..];
    rewrite bool_decide_eq_true; set_solver.
Qed.

(* ===================================================================== *)
(** ** The presentation state machine: statements of the specification *)
(* ===================================================================== *)

Lemma has_status_quiet_step op u :
  tune_ok op = true -> is_dispatch op = false ->
  has_status UiState.Filled u = false ->
  has_status UiState.Filled (ui_step op u) = false.
Proof.
  intros Hok Hd Hu. destruct op; try discriminate; cbn [ui_step].
  - apply has_status_toggleStatus.
  - apply has_status_toggleStatus.
  - apply has_status_toggleStatus.
  - exact Hu.
  - exact Hu.
  - destruct (ui_step_applyTune tuneName status u) as [H | H];
      cbn [ui_step] in H; rewrite H; [by rewrite has_status_applyTune|done].
  - unfold has_status. by rewrite nodes_wrapper_loadMetadata.
Qed.

(** The event [fillVideo] listens for on the element it composes. *)
Lemma fillVideo_element_listeners url :
  listeners (fillVideo_element url) =
  [(if test mp4_pattern url then "loadeddata" else "load",
    ToggleStatus UiState.Filled)].
Proof. unfold fillVideo_element. by destruct (test mp4_pattern url). Qed.

Lemma fillVideo_lookup url u :
  container_media (fillVideo url u) !! length (container_media u)
  = Some (fillVideo_element url).
Proof.
  unfold fillVideo. cbn. rewrite lookup_app_r by lia.
  by rewrite Nat.sub_diag.
Qed.

Lemma container_media_fillVideo url u :
  container_media (fillVideo url u)
  = (container_media u ++ [fillVideo_element url])%list.
Proof. reflexivity. Qed.

Lemma container_media_dispatchEvent i ev u :
  container_media (dispatchEvent i ev u) = container_media u /\
  nodes_videoEl (dispatchEvent i ev u) = nodes_videoEl u /\
  nodes_fileButton (dispatchEvent i ev u) = nodes_fileButton u.
Proof.
  unfold dispatchEvent. destruct (container_media u !! i) as [el|]; [|done].
  generalize (listeners el) as ls. intros ls. revert u.
  induction ls as [|[ev' l] ls IH]; intros u; [done|].
  cbn [foldl]. destruct (String.eqb ev' ev); [|apply IH].
  destruct (IH (run_listener l u)) as (H1 & H2 & H3).
  rewrite H1, H2, H3. by destruct l.
Qed.

Lemma listeners_at_loadMetadata j w h u i :
  listeners <$> container_media (loadMetadata j w h u) !! i
  = listeners <$> container_media u !! i.
Proof.
  unfold loadMetadata. destruct (container_media u !! j) as [el|] eqn:Hj; [|done].
  destruct (String.eqb (tagName el) "VIDEO"); [|done]. cbn.
  destruct (decide (i = j)) as [-> | Hne].
  - rewrite list_lookup_insert_eq by (by eapply lookup_lt_Some). by rewrite Hj.
  - by rewrite list_lookup_insert_ne.
Qed.

Lemma length_media_loadMetadata j w h u :
  length (container_media (loadMetadata j w h u)) = length (container_media u).
Proof.
  unfold loadMetadata. destruct (container_media u !! j) as [el|] eqn:Hj; [|done].
  destruct (String.eqb (tagName el) "VIDEO"); [|done]. cbn.
  by rewrite length_insert.
Qed.

(** A call other than [fillVideo] neither adds a media element nor touches
    the listeners of one. *)
Lemma ui_step_keeps_listeners op u i :
  is_fillVideo op = false ->
  length (container_media (ui_step op u)) = length (container_media u) /\
  listeners <$> container_media (ui_step op u) !! i
  = listeners <$> container_media u !! i.
Proof.
  destruct op; try discriminate; intros _; cbn [ui_step]; try done.
  - destruct (ui_step_applyTune tuneName status u) as [H | H];
      cbn [ui_step] in H; by rewrite H.
  - by rewrite (proj1 (container_media_dispatchEvent i0 eventName u)).
  - split; [apply length_media_loadMetadata | apply listeners_at_loadMetadata].
Qed.

Lemma ui_run_keeps_listeners ops u i :
  existsb is_fillVideo ops = false ->
  length (container_media (ui_run ops u)) = length (container_media u) /\
  listeners <$> container_media (ui_run ops u) !! i
  = listeners <$> container_media u !! i.
Proof.
  induction ops as [|op ops IH] using rev_ind; intros Hno; [done|].
  rewrite existsb_app in Hno. cbn in Hno.
  apply orb_false_elim in Hno as [Hops Hop]. rewrite orb_false_r in Hop.
  rewrite ui_run_snoc.
  destruct (ui_step_keeps_listeners op (ui_run ops u) i Hop) as [Hl Hi].
  destruct (IH Hops) as [IHl IHi]. by rewrite Hl, Hi.
Qed.

(** A dispatch that makes the status Filled has run a listener that
    [fillVideo] added. *)
Lemma dispatchEvent_fills i ev u :
  has_status UiState.Filled u = false ->
  has_status UiState.Filled (dispatchEvent i ev u) = true ->
  exists el,
    container_media u !! i = Some el /\
    (ev, ToggleStatus UiState.Filled) ∈ listeners el.
Proof.
  unfold dispatchEvent. destruct (container_media u !! i) as [el|]; [|congruence].
  intros Hu Hf. exists el. split; [done|]. revert u Hu Hf.
  generalize (listeners el) as ls.
  induction ls as [|[ev' l] ls IH]; intros u Hu Hf; [cbn in Hf; congruence|].
  cbn [foldl] in Hf. destruct (String.eqb_spec ev' ev) as [-> | Hne].
  - destruct l as [s|]; cbn [run_listener] in Hf.
    + destruct s; try (by left); right;
        (eapply IH; [|exact Hf]; apply has_status_toggleStatus).
    + right. by apply (IH u).
  - right. by apply (IH u).
Qed.

Lemma filled_only_by_event ops u :
  forallb tune_ok ops = true ->
  has_status UiState.Filled u = false ->
  has_status UiState.Filled (ui_run ops u) = true ->
  exists ops1 i eventName ops2 el,
    ops = (ops1 ++ OpDispatch i eventName :: ops2)%list /\
    container_media (ui_run ops1 u) !! i = Some el /\
    (eventName, ToggleStatus UiState.Filled) ∈ listeners el.
Proof.
  induction ops as [|op ops IH] using rev_ind; intros Hok Hu Hf;
    [cbn in Hf; congruence|].
  rewrite forallb_app in Hok. cbn in Hok.
  apply andb_prop in Hok as [Hops Hop]. rewrite andb_true_r in Hop.
  rewrite ui_run_snoc in Hf.
  destruct (has_status UiState.Filled (ui_run ops u)) eqn:Hprev.
  - destruct (IH Hops Hu eq_refl) as (ops1 & i & ev & ops2 & el & -> & Hi & Hin).
    exists ops1, i, ev, (ops2 ++ [op])%list, el.
    split; [by rewrite <- app_assoc|done].
  - destruct (is_dispatch op) eqn:Hd.
    + destruct op as [| | | | | |i ev|]; try discriminate. cbn [ui_step] in Hf.
      destruct (dispatchEvent_fills i ev _ Hprev Hf) as (el & Hi & Hin).
      exists ops, i, ev, [], el. done.
    + rewrite (has_status_quiet_step op _ Hop Hd Hprev) in Hf. discriminate.
Qed.

(** C5 (amended). [showPreloader] moves the status to Uploading whatever it
    was, and [fillVideo] leaves the status as it was. After a [fillVideo]
    made when the status is not Filled, over any run of the presentation
    layer (tunes applied under names other than the status values), the
    status is Filled only once an event has been dispatched on a media
    element of the container that listens for it with the listener
    [fillVideo] adds: the new element, or one that an earlier [fillVideo]
    left in the container. When the container held no element before and
    [fillVideo] is not called again, the status is never Filled before the
    ready event of the new element ([loadeddata] on a video element, [load]
    on an image element) has been dispatched on it. That event makes the
    status Filled, and any other event dispatched on the element changes
    nothing. *)
Theorem showPreloader_uploading_fillVideo_filled_on_event :
  (forall u, active_statuses (showPreloader u) = [UiState.Uploading]) /\
  (forall u url, active_statuses (fillVideo url u) = active_statuses u) /\
  (forall u url ops,
     has_status UiState.Filled u = false ->
     forallb tune_ok ops = true ->
     has_status UiState.Filled (ui_run ops (fillVideo url u)) = true ->
     exists ops1 i eventName ops2 el,
       ops = (ops1 ++ OpDispatch i eventName :: ops2)%list /\
       container_media (ui_run ops1 (fillVideo url u)) !! i = Some el /\
       (eventName, ToggleStatus UiState.Filled) ∈ listeners el) /\
  (forall u url ops,
     let ready := if test mp4_pattern url then "loadeddata" else "load" in
     container_media u = [] ->
     has_status UiState.Filled u = false ->
     forallb tune_ok ops = true ->
     existsb is_fillVideo ops = false ->
     existsb (is_dispatch_of 0 ready) ops = false ->
     has_status UiState.Filled (ui_run ops (fillVideo url u)) = false) /\
  (forall u url,
     let ready := if test mp4_pattern url then "loadeddata" else "load" in
     let i := length (container_media u) in
     nodes_videoEl (fillVideo url u) = Some i /\
     active_statuses (dispatchEvent i ready (fillVideo url u))
     = [UiState.Filled] /\
     forall eventName,
       String.eqb ready eventName = false ->
       dispatchEvent i eventName (fillVideo url u) = fillVideo url u).
Proof.
  split; [intros u; apply toggleStatus_active|].
  split; [reflexivity|].
  split; [|split].
  - intros u url ops Hu Hok Hf. by apply filled_only_by_event.
  - intros u url ops ready Hempty Hu Hok Hnofill Hnoevent.
    destruct (has_status UiState.Filled (ui_run ops (fillVideo url u))) eqn:Hf;
      [exfalso|reflexivity].
    destruct (filled_only_by_event ops (fillVideo url u) Hok Hu Hf)
      as (ops1 & i & ev & ops2 & el & -> & Hi & Hin).
    rewrite existsb_app in Hnofill, Hnoevent.
    apply orb_false_elim in Hnofill as [Hnofill _].
    apply orb_false_elim in Hnoevent as [_ Hnoevent].
    cbn [existsb is_dispatch_of] in Hnoevent.
    apply orb_false_elim in Hnoevent as [Hnoevent _].
    destruct (ui_run_keeps_listeners ops1 (fillVideo url u) i Hnofill)
      as [_ Hkeep].
    rewrite Hi, container_media_fillVideo, Hempty in Hkeep. cbn in Hkeep.
    destruct i as [|i]; [|discriminate]. cbn in Hkeep.
    injection Hkeep as Hl. rewrite Hl, fillVideo_element_listeners in Hin.
    fold ready in Hin. apply list_elem_of_singleton in Hin.
    injection Hin as ->. cbn in Hnoevent. by rewrite String.eqb_refl in Hnoevent.
  - intros u url ready i. split; [reflexivity|].
    unfold dispatchEvent. subst i. rewrite fillVideo_lookup.
    rewrite fillVideo_element_listeners. fold ready. cbn [foldl].
    split.
    + rewrite String.eqb_refl. apply toggleStatus_active.
    + intros eventName ->. reflexivity.
Qed.

Lemma showPreloader_uploading_fillVideo_filled_on_event_witness :
  has_status UiState.Filled
    (ui_run [OpShowPreloader; OpFillCaption "hi"; OpApplyTune "caption" true;
             OpDispatch 0 "load"; OpDispatch 1 "loadeddata";
             OpLoadMetadata 0 640 480]
       (fillVideo "https://x/a.mp4"
          (Ui_render (Ui_constructor example_IconPicture example_reserialize
             example_api
             {| captionPlaceholder := "Caption"; buttonContent := None;
                actions := None; features_caption := None |} false))))
  = false.
Proof.
  apply (proj1 (proj2 (proj2 (proj2
           showPreloader_uploading_fillVideo_filled_on_event))));
    vm_compute; reflexivity.
Defined.

Lemma replaced_element_fills_before_own_event :
  let u :=
    ui_run [OpRender; OpFillVideo "https://x/a.mp4"; OpShowPreloader;
            OpFillVideo "https://x/b.png"] example_ui in
  let s :=
    example_run
      [DoRender;
       DoPaste (PastePattern "https://x/a.mp4");
       DoPaste (PastePattern "https://x/b.webm");
       CallOnUpload
         (JObj [("success", JNum 1);
                ("file", JObj [("url", JStr "https://x/a.mp4")])]);
       CallOnUpload
         (JObj [("success", JNum 1);
                ("file", JObj [("url", JStr "https://x/b.webm")])])]
      (example_session (JObj [])) in
  nodes_videoEl u = Some 1 /\
  listeners <$> container_media u !! 1
  = Some [("load", ToggleStatus UiState.Filled)] /\
  active_statuses u = [UiState.Uploading] /\
  active_statuses (ui_step (OpDispatch 0 "loadeddata") u) = [UiState.Filled] /\
  nodes_videoEl (ui (tool (world s))) = Some 1 /\
  listeners <$> container_media (ui (tool (world s))) !! 1
  = Some [("load", ToggleStatus UiState.Filled)] /\
  active_statuses (ui (tool (world s))) = [UiState.Uploading] /\
  active_statuses
    (ui (tool (world (example_run [BrowserDispatch 0 "loadeddata"] s))))
  = [UiState.Filled].
Proof. repeat split; vm_compute; reflexivity. Qed.

(** C6 (amended). [fillVideo] makes the element it composes [nodes.videoEl]
    and appends it to the video container. The element is a video element
    (with [playsinline] and [controls], listening for [loadeddata]) exactly
    when the url ends in [.mp4], and an image element (listening for [load])
    for every other url. *)
Theorem fillVideo_element_kind url u :
  nodes_videoEl (fillVideo url u) = Some (length (container_media u)) /\
  container_media (fillVideo url u) !! length (container_media u)
  = Some (fillVideo_element url) /\
  ((ends_with ".mp4" url /\ fillVideo_element url = video_element url) \/
   (~ ends_with ".mp4" url /\ fillVideo_element url = image_element url)).
Proof.
  split; [reflexivity|]. split; [apply fillVideo_lookup|].
  pose proof (test_lit ".mp4" url) as Hspec. fold mp4_pattern in Hspec.
  unfold fillVideo_element.
  destruct (test mp4_pattern url) eqn:Ht.
  - left. split; [by apply Hspec | reflexivity].
  - right. split; [|reflexivity].
    intros H. apply Hspec in H. discriminate.
Qed.

Lemma webm_source_gets_image_element :
  test pasteConfig_patterns_video "https://x/a.webm" = true /\
  test pasteConfig_patterns_video "https://x/a.MP4?t=1" = true /\
  fillVideo_element "https://x/a.webm" = image_element "https://x/a.webm" /\
  fillVideo_element "https://x/a.MP4?t=1"
  = image_element "https://x/a.MP4?t=1".
Proof. repeat split; vm_compute; reflexivity. Qed.

(** C8 (amended). Right after its construction the wrapper carries none of
    the three status classes. Over any run of the presentation layer from
    there (tunes applied under names other than the status values) at most
    one status class is present; exactly one is present once [render],
    [showPreloader] or [hidePreloader] has been called; and none is present
    as long as none of these has been called and no event has been
    dispatched. *)
Theorem status_classes_over_lifetime icon rs a c ro ops :
  forallb (fun s => negb (String.eqb (styles_block a) (status_class s)))
    UiState.members = true ->
  forallb tune_ok ops = true ->
  let u0 := Ui_constructor icon rs a c ro in
  active_statuses u0 = [] /\
  length (active_statuses (ui_run ops u0)) <= 1 /\
  (existsb forces_status ops = true ->
   length (active_statuses (ui_run ops u0)) = 1) /\
  (existsb forces_status ops = false -> existsb is_dispatch ops = false ->
   active_statuses (ui_run ops u0) = []).
Proof.
  intros Hbase Hok u0.
  pose proof (active_statuses_constructor icon rs a c ro Hbase) as H0.
  fold u0 in H0.
  destruct (ui_run_statuses ops u0 Hok) as (H1 & H2 & H3).
  split; [exact H0|]. split; [apply H1; rewrite H0; cbn; lia|].
  split; [exact H2|]. intros Hf Hd. rewrite H3 by done. exact H0.
Qed.

Lemma status_classes_over_lifetime_witness :
  length
    (active_statuses
       (ui_run [OpFillVideo "https://x/a.mp4"; OpRender; OpShowPreloader;
                OpApplyTune "caption" true; OpDispatch 0 "loadeddata"]
          (Ui_constructor example_IconPicture example_reserialize
             example_api
             {| captionPlaceholder := "Caption"; buttonContent := None;
                actions := None; features_caption := None |} false)))
  = 1.
Proof.
  refine (proj1 (proj2 (proj2
    (status_classes_over_lifetime example_IconPicture example_reserialize
       example_api _ false _ _ _))) _); vm_compute; reflexivity.
Defined.

Lemma no_status_class_before_render :
  fst (example_tool saved_mp4) = Return tt /\
  active_statuses (ui (tool (snd (example_tool saved_mp4)))) = [] /\
  active_statuses
    (Ui_constructor example_IconPicture example_reserialize
             example_api
       {| captionPlaceholder := "Caption"; buttonContent := None;
          actions := None; features_caption := None |} false) = [].
Proof. repeat split; vm_compute; reflexivity. Qed.

(* ===================================================================== *)
(** ** The block controller: statements of the specification *)
(* ===================================================================== *)

Arguments toggleStatus : simpl never.
Arguments active_statuses : simpl never.
Arguments fillVideo : simpl never.

Section Controller.

Variable JSON_stringify : JsVal -> string.
Variable Number_toString : float -> string.

(** The world after [uploadingFailed]. *)
Lemma uploadingFailed_spec errorText w :
  uploadingFailed errorText w =
  (Return tt,
   mkWorld
     (mkTool (api (tool w)) (config (tool w)) (hidePreloader (ui (tool w)))
        (_data (tool w)) (isCaptionEnabled (tool w)))
     (notifier_shown w ++
        [ {| message := i18n_t (api (tool w)) "Couldn’t upload video";
             style := "error" |} ])
     (console_logged w ++
        [["Video Tool: uploading failed because of"; errorText]])
     (actions_called w)).
Proof. reflexivity. Qed.

(** A truthy value has every property read without an exception. *)
Lemma Get_truthy v k : ToBoolean v = true -> exists x, Get v k = Return x.
Proof. destruct v; try discriminate; intros _; cbn; eauto. Qed.

(** The world after the setter [video] is given a truthy file. *)
Lemma set_video_truthy f url w :
  ToBoolean f = true -> Get f "url" = Return url ->
  set_video Number_toString f w =
  (Return tt,
   mkWorld
     (mkTool (api (tool w)) (config (tool w))
        (if ToBoolean url
         then fillVideo (ToString Number_toString url) (ui (tool w))
         else ui (tool w))
        (set_file_field f (_data (tool w))) (isCaptionEnabled (tool w)))
     (notifier_shown w) (console_logged w) (actions_called w)).
Proof.
  intros Hf Hurl. unfold set_video, bind, modify_data, modify_tool, lift.
  cbn. unfold js_or. rewrite Hf, Hurl.
  destruct (ToBoolean url); cbn; [reflexivity|].
  by destruct w as [[] ? ? ?].
Qed.

Lemma onUpload_accepts response success f w :
  Get response "success" = Return success ->
  Get response "file" = Return f ->
  ToBoolean success && ToBoolean f = true ->
  onUpload JSON_stringify Number_toString response w
  = set_video Number_toString f w.
Proof.
  intros Hs Hf [Hts Htf]%andb_prop.
  unfold onUpload, bind, lift, ret. rewrite Hs, Hts, Hf, Htf. reflexivity.
Qed.

Lemma onUpload_rejects response success f w :
  Get response "success" = Return success ->
  Get response "file" = Return f ->
  ToBoolean success && ToBoolean f = false ->
  onUpload JSON_stringify Number_toString response w
  = uploadingFailed ("incorrect response: " +:+ JSON_stringify response) w.
Proof.
  intros Hs Hf Hacc.
  unfold onUpload, bind, lift, ret. rewrite Hs.
  destruct (ToBoolean success); [|reflexivity].
  rewrite Hf. cbn in Hacc. rewrite Hacc. reflexivity.
Qed.



(** C1 (amended). A response whose [success] and [file] can be read is
    accepted exactly when both are truthy: then the callback returns, the
    record's file is the response's [file] (any truthy value: an object
    without [url], even an empty one, is accepted) and no notification is
    shown. In every other case the callback is [uploadingFailed]: the record
    is as before and one more notification has been shown. *)
Theorem onUpload_acceptance response success f w :
  Get response "success" = Return success ->
  Get response "file" = Return f ->
  let after := onUpload JSON_stringify Number_toString response w in
  (ToBoolean success && ToBoolean f = true ->
   fst after = Return tt /\
   file (_data (tool (snd after))) = f /\
   notifier_shown (snd after) = notifier_shown w) /\
  (ToBoolean success && ToBoolean f = false ->
   after = uploadingFailed
             ("incorrect response: " +:+ JSON_stringify response) w /\
   _data (tool (snd after)) = _data (tool w) /\
   length (notifier_shown (snd after)) = S (length (notifier_shown w))).
Proof.
  intros Hs Hf after. subst after. split; intros Hacc.
  - rewrite (onUpload_accepts _ _ _ _ Hs Hf Hacc).
    apply andb_prop in Hacc as [_ Htf].
    destruct (Get_truthy f "url" Htf) as [url Hurl].
    rewrite (set_video_truthy f url w Htf Hurl).
    cbn [fst snd tool _data file set_file_field notifier_shown]. done.
  - rewrite (onUpload_rejects _ _ _ _ Hs Hf Hacc), uploadingFailed_spec. cbn.
    rewrite length_app. cbn. split; [done|]. split; [done | lia].
Qed.

(** C2. For a response with a truthy [success] whose [file] is an object
    with a non-empty string [url], the callback returns and the record's file
    is the response's [file] object itself, with every other property it
    carries; caption and aspect ratio are as before, the presentation layer
    has been given the url by [fillVideo], and no notification is shown. *)
Theorem onUpload_valid_response_replaces_file response success props url w :
  Get response "success" = Return success ->
  ToBoolean success = true ->
  Get response "file" = Return (JObj props) ->
  lookup_prop "url" props = JStr url ->
  url <> "" ->
  let after := onUpload JSON_stringify Number_toString response w in
  fst after = Return tt /\
  file (_data (tool (snd after))) = JObj props /\
  caption (_data (tool (snd after))) = caption (_data (tool w)) /\
  aspectRatio (_data (tool (snd after))) = aspectRatio (_data (tool w)) /\
  ui (tool (snd after)) = fillVideo url (ui (tool w)) /\
  notifier_shown (snd after) = notifier_shown w.
Proof.
  intros Hs Hts Hf Hurl Hne after. subst after.
  rewrite (onUpload_accepts response success (JObj props) w Hs Hf)
    by (rewrite Hts; reflexivity).
  rewrite (set_video_truthy (JObj props) (JStr url) w)
    by (cbn; congruence).
  cbn. apply String.eqb_neq in Hne. rewrite Hne. cbn. done.
Qed.

(** C3. For a response whose [success] is falsy or whose [file] is falsy
    (missing), the callback returns, the record is unchanged, exactly one
    notification (the upload failure message, style [error]) has been added,
    the only status class on the wrapper is that of Empty, and the media
    elements are as before. *)
Theorem onUpload_failure_keeps_record response success f w :
  Get response "success" = Return success ->
  Get response "file" = Return f ->
  ToBoolean success = false \/ ToBoolean f = false ->
  let after := onUpload JSON_stringify Number_toString response w in
  fst after = Return tt /\
  _data (tool (snd after)) = _data (tool w) /\
  notifier_shown (snd after) =
    (notifier_shown w ++
       [ {| message := i18n_t (api (tool w)) "Couldn’t upload video";
            style := "error" |} ])%list /\
  active_statuses (ui (tool (snd after))) = [UiState.Empty] /\
  container_media (ui (tool (snd after))) = container_media (ui (tool w)) /\
  nodes_videoEl (ui (tool (snd after))) = nodes_videoEl (ui (tool w)).
Proof.
  intros Hs Hf Hfail after. subst after.
  rewrite (onUpload_rejects response success f w Hs Hf),
    uploadingFailed_spec.
  - cbn. split; [done|]. split; [done|]. split; [done|].
    split; [apply toggleStatus_active | done].
  - destruct Hfail as [-> | ->]; [reflexivity | apply andb_false_r].
Qed.

End Controller.

Lemma onUpload_acceptance_witness :
  let response := JObj [("success", JNum 1); ("file", JObj [("id", JNum 7)])] in
  let w := snd (example_tool saved_png) in
  let after := onUpload example_JSON_stringify example_Number_toString response w in
  fst after = Return tt /\
  file (_data (tool (snd after))) = JObj [("id", JNum 7)] /\
  notifier_shown (snd after) = notifier_shown w.
Proof.
  intros response w after.
  apply (proj1 (onUpload_acceptance example_JSON_stringify
                  example_Number_toString response (JNum 1)
                  (JObj [("id", JNum 7)]) w eq_refl eq_refl)).
  reflexivity.
Defined.

Lemma onUpload_accepts_file_without_url :
  let response := JObj [("success", JNum 1); ("file", JObj [])] in
  let before := snd (and_then (example_tool saved_mp4) (modify_ui showPreloader)) in
  let after := onUpload example_JSON_stringify example_Number_toString response before in
  fst after = Return tt /\
  file (_data (tool (snd after))) = JObj [] /\
  notifier_shown (snd after) = [] /\
  console_logged (snd after) = [] /\
  active_statuses (ui (tool (snd after))) = [UiState.Uploading] /\
  validate (JObj [("file", JObj [])]) = Return false.
Proof. repeat split; vm_compute; reflexivity. Qed.

Lemma onUpload_valid_response_replaces_file_witness :
  let f := [("url", JStr "https://x/b.mp4"); ("size", JNum 91); ("id", JStr "k")] in
  let response := JObj [("success", JNum 1); ("file", JObj f)] in
  let w := snd (example_tool saved_png) in
  let after := onUpload example_JSON_stringify example_Number_toString response w in
  fst after = Return tt /\
  file (_data (tool (snd after))) = JObj f /\
  caption (_data (tool (snd after))) = caption (_data (tool w)) /\
  aspectRatio (_data (tool (snd after))) = aspectRatio (_data (tool w)) /\
  ui (tool (snd after)) = fillVideo "https://x/b.mp4" (ui (tool w)) /\
  notifier_shown (snd after) = notifier_shown w.
Proof.
  intros f response w after.
  apply (onUpload_valid_response_replaces_file example_JSON_stringify
           example_Number_toString response (JNum 1) f "https://x/b.mp4" w);
    try reflexivity.
  discriminate.
Defined.

Lemma onUpload_failure_keeps_record_witness :
  let response := JObj [("success", JNum 0)] in
  let w := snd (and_then (example_tool saved_png) (modify_ui showPreloader)) in
  let after := onUpload example_JSON_stringify example_Number_toString response w in
  fst after = Return tt /\
  _data (tool (snd after)) = _data (tool w) /\
  notifier_shown (snd after) =
    (notifier_shown w ++
       [ {| message := i18n_t (api (tool w)) "Couldn’t upload video";
            style := "error" |} ])%list /\
  active_statuses (ui (tool (snd after))) = [UiState.Empty] /\
  container_media (ui (tool (snd after))) = container_media (ui (tool w)) /\
  nodes_videoEl (ui (tool (snd after))) = nodes_videoEl (ui (tool w)).
Proof.
  intros response w after.
  apply (onUpload_failure_keeps_record example_JSON_stringify
           example_Number_toString response (JNum 0) JUndefined w);
    [reflexivity | reflexivity | left; reflexivity].
Defined.

(** C4 (amended). For a record whose [file] is an object, [validate]
    returns the truthiness of [file.url]: for a string url, true exactly when
    it is not empty, and false when the url is the empty string, missing or
    null. For a record whose [file] is missing or null, [validate] does not
    return: reading [url] throws a [TypeError]. *)
Theorem validate_truthy_url :
  (forall props fprops,
     lookup_prop "file" props = JObj fprops ->
     validate (JObj props) = Return (ToBoolean (lookup_prop "url" fprops))) /\
  (forall url, ToBoolean (JStr url) = true <-> url <> "") /\
  (forall props fprops url,
     lookup_prop "file" props = JObj fprops ->
     lookup_prop "url" fprops = url ->
     url = JStr "" \/ url = JUndefined \/ url = JNull ->
     validate (JObj props) = Return false) /\
  (forall props,
     lookup_prop "file" props = JUndefined \/ lookup_prop "file" props = JNull ->
     validate (JObj props) = Throw (TypeError "url")).
Proof.
  split; [|split; [|split]].
  - intros props fprops Hf. unfold validate. cbn. rewrite Hf. reflexivity.
  - intros url. cbn. rewrite negb_true_iff. apply String.eqb_neq.
  - intros props fprops url Hf Hu Hcases. unfold validate. cbn.
    rewrite Hf. cbn. rewrite Hu.
    destruct Hcases as [-> | [-> | ->]]; reflexivity.
  - intros props Hf. unfold validate. cbn.
    destruct Hf as [-> | ->]; reflexivity.
Qed.

Lemma validate_truthy_url_witness :
  validate (JObj [("file", JObj [("url", JStr "https://x/a.mp4")]);
                  ("caption", JStr "")])
  = Return true /\
  validate (JObj [("file", JObj [("url", JNull)])]) = Return false /\
  validate (JObj [("caption", JStr "only")]) = Throw (TypeError "url").
Proof.
  destruct validate_truthy_url as (Hobj & _ & Hfalse & Hthrow).
  split; [|split].
  - apply (Hobj _ [("url", JStr "https://x/a.mp4")]). reflexivity.
  - apply (Hfalse _ [("url", JNull)] JNull); [reflexivity | reflexivity | auto].
  - apply Hthrow. left. reflexivity.
Defined.

Lemma validate_throws_without_file :
  validate (JObj [("caption", JStr ""); ("aspectRatio", JNum 1)])
  = Throw (TypeError "url") /\
  validate (JObj [("file", JNull)]) = Throw (TypeError "url") /\
  validate JNull = Throw (TypeError "file").
Proof. repeat split. Qed.

(** C7. A tool built from saved data with an [.mp4] source has a video
    element from its construction on, whose [videoWidth] and [videoHeight] are
    0 until the browser has the video's metadata. [save] called then divides
    0 by 0: the aspect ratio it returns is NaN, which is not a positive
    number, and not the default 1. (With an image source the element has no
    such dimensions and the aspect ratio returned is 1.) *)
Theorem save_before_video_metadata :
  fst (and_then (example_tool saved_mp4) save)
  = Return {| caption := JStr "hi";
              aspectRatio := JNum nan;
              file := JObj [("url", JStr "https://x/a.mp4")] |} /\
  videoEl_prop videoWidth (ui (tool (snd (example_tool saved_mp4))))
  = Some 0%float /\
  videoEl_prop videoHeight (ui (tool (snd (example_tool saved_mp4))))
  = Some 0%float /\
  PrimFloat.ltb 0 nan = false /\
  fst (and_then (example_tool saved_png) save)
  = Return {| caption := JStr "hi";
              aspectRatio := JNum 1;
              file := JObj [("url", JStr "https://x/a.png"); ("id", JNum 7)] |}.
Proof. repeat split; vm_compute; reflexivity. Qed.

(** C9. [tuneToggled('caption', false)] returns, with the record's caption
    and the caption element's content both the empty string, and the rest of
    the record untouched. [tuneToggled] with any tune name other than
    [caption] throws an [Error] and changes nothing. The same holds through
    a menu entry's [onActivate] for a tune without an action function:
    activating the caption tune while it is enabled disables it and clears
    the caption, and activating a tune of any other name throws. *)
Theorem tuneToggled_caption_off_and_unknown_tune :
  (forall w,
     let after := tuneToggled "caption" false w in
     fst after = Return tt /\
     caption (_data (tool (snd after))) = JStr "" /\
     innerHTML (nodes_caption (ui (tool (snd after)))) = "" /\
     file (_data (tool (snd after))) = file (_data (tool w)) /\
     aspectRatio (_data (tool (snd after))) = aspectRatio (_data (tool w))) /\
  (forall tuneName state w,
     tuneName <> "caption" ->
     tuneToggled tuneName state w =
     (Throw (Error ("There is no tune with name " +:+ tuneName
                    +:+ " in Video Tool")), w)) /\
  (forall tune w,
     has_action tune = false ->
     name tune = "caption" ->
     isCaptionEnabled (tool w) = Some true ->
     let after := onActivate tune w in
     fst after = Return tt /\
     isCaptionEnabled (tool (snd after)) = Some false /\
     caption (_data (tool (snd after))) = JStr "" /\
     innerHTML (nodes_caption (ui (tool (snd after)))) = "") /\
  (forall tune w,
     has_action tune = false ->
     name tune <> "caption" ->
     onActivate tune w =
     (Throw (Error ("There is no tune with name " +:+ name tune
                    +:+ " in Video Tool")), w)).
Proof.
  split; [|split; [|split]].
  - intros w. cbn. done.
  - intros tuneName state w Hne. unfold tuneToggled.
    apply String.eqb_neq in Hne. rewrite Hne. reflexivity.
  - intros tune w Hact Hname Hen. unfold onActivate.
    rewrite Hact, Hname. cbn. rewrite Hen. cbn. done.
  - intros tune w Hact Hne. unfold onActivate, tuneToggled.
    apply String.eqb_neq in Hne. rewrite Hact, Hne. reflexivity.
Qed.

Lemma tuneToggled_caption_off_and_unknown_tune_witness :
  tuneToggled "withBorder" true (snd (example_tool saved_png)) =
  (Throw (Error "There is no tune with name withBorder in Video Tool"),
   snd (example_tool saved_png)).
Proof.
  apply (proj1 (proj2 tuneToggled_caption_off_and_unknown_tune)).
  discriminate.
Defined.

Section Construction.

Variable Number_toString : float -> string.
Variable IconPicture : string.
Variable reserialize : string -> string.

(** C10 (amended). For saved data [d] whose [file] is an object with a
    string [url] that does not end in [.mp4] (so that the constructor
    creates no video element: none at all for an empty url, an image element
    otherwise) and whose caption is a string or absent, the constructor
    returns and [save], called right after it, returns the aspect ratio 1
    whatever [d.aspectRatio] is, the file [d.file], and as caption what the
    caption element reads after [d.caption] was assigned to its [innerHTML]:
    the empty string when the caption is absent or empty, and otherwise the
    document's serialisation of the markup [d.caption]. *)
Theorem save_after_construction_without_video_element
    props fprops url c cfg a ro :
  lookup_prop "file" props = JObj fprops ->
  lookup_prop "url" fprops = JStr url ->
  ~ ends_with ".mp4" url ->
  lookup_prop "caption" props
  = match c with Some text => JStr text | None => JUndefined end ->
  let built :=
    VideoTool_constructor Number_toString IconPicture reserialize
      (JObj props) cfg a ro in
  fst built = Return tt /\
  fst (save (snd built))
  = Return {| caption :=
                JStr (innerHTML_after_assignment reserialize (default "" c));
              aspectRatio := JNum 1;
              file := JObj fprops |}.
Proof.
  intros Hf Hurl Hext Hc built. subst built.
  assert (test mp4_pattern url = false) as Ht.
  { destruct (test mp4_pattern url) eqn:Ht; [|reflexivity].
    exfalso. apply Hext. by apply test_lit. }
  assert (fillVideo_element url = image_element url) as Hel.
  { unfold fillVideo_element. rewrite Ht. reflexivity. }
  unfold VideoTool_constructor, set_data, set_video, bind, lift. cbn.
  rewrite Hf. cbn. rewrite Hurl, Hc. cbn.
  assert (ToString Number_toString
            (js_or match c with Some text => JStr text | None => JUndefined end
               (JStr "")) = default "" c) as Hcap.
  { destruct c as [[|ch text]|]; reflexivity. }
  destruct (negb (url =? "")) eqn:Hempty; cbn;
    destruct (default None (user_features cfg)) as [[[|]|]|]; cbn;
    rewrite ?Hc; cbn; rewrite ?Hcap; unfold fillVideo; cbn; rewrite ?Hel;
    cbn; done.
Qed.

End Construction.

Lemma save_after_construction_without_video_element_witness :
  fst (example_tool saved_png) = Return tt /\
  fst (save (snd (example_tool saved_png)))
  = Return {| caption := JStr "hi";
              aspectRatio := JNum 1;
              file := JObj [("url", JStr "https://x/a.png"); ("id", JNum 7)] |}.
Proof.
  apply (save_after_construction_without_video_element
           example_Number_toString example_IconPicture example_reserialize
           [("file", JObj [("url", JStr "https://x/a.png"); ("id", JNum 7)]);
            ("caption", JStr "hi"); ("aspectRatio", JNum 2)]
           [("url", JStr "https://x/a.png"); ("id", JNum 7)]
           "https://x/a.png" (Some "hi") example_config example_api false);
    try reflexivity.
  intros H. apply test_lit in H. discriminate.
Defined.

Lemma save_after_construction_reserialises_caption :
  let d :=
    JObj [("file", JObj [("url", JStr "")]);
          ("caption", JStr "Tom & Jerry"); ("aspectRatio", JNum 2)] in
  fst (example_tool d) = Return tt /\
  nodes_videoEl (ui (tool (snd (example_tool d)))) = None /\
  container_media (ui (tool (snd (example_tool d)))) = [] /\
  fst (save (snd (example_tool d)))
  = Return {| caption := JStr "Tom &amp; Jerry";
              aspectRatio := JNum 1;
              file := JObj [("url", JStr "")] |}.
Proof. repeat split; vm_compute; reflexivity. Qed.

(* ===================================================================== *)
(** ** Further properties of the presentation layer *)
(* ===================================================================== *)

Lemma wrapper_class_toggleStatus s u token :
  (forall s', token <> status_class s') ->
  classList_contains token (classList (nodes_wrapper (toggleStatus s u)))
  = classList_contains token (classList (nodes_wrapper u)).
Proof.
  intros Hne. unfold toggleStatus, UiState.members, classList_contains.
  cbn. unfold classList_toggle.
  pose proof (Hne UiState.Empty). pose proof (Hne UiState.Uploading).
  pose proof (Hne UiState.Filled).
  apply bool_decide_ext. destruct s; cbn; set_solver.
Qed.

(** Closes an equation between class sets built from a set [X] and the
    three status classes. *)
Ltac status_sets :=
  let Hab := fresh in let Hac := fresh in let Hbc := fresh in
  assert (status_class UiState.Empty <> status_class UiState.Uploading)
    as Hab by done;
  assert (status_class UiState.Empty <> status_class UiState.Filled)
    as Hac by done;
  assert (status_class UiState.Uploading <> status_class UiState.Filled)
    as Hbc by done;
  revert Hab Hac Hbc;
  generalize (status_class UiState.Empty) (status_class UiState.Uploading)
    (status_class UiState.Filled);
  let a := fresh "a" in let b := fresh "b" in let c := fresh "c" in
  let x := fresh "x" in
  intros a b c ? ? ?; apply set_eq; intros x; set_unfold;
  destruct (decide (x = a)), (decide (x = b)), (decide (x = c));
  subst; tauto.

Lemma toggleStatus_wrapper_classes s u :
  classList (nodes_wrapper (toggleStatus s u))
  = (classList (nodes_wrapper u)
       ∖ {[status_class UiState.Empty]} ∖ {[status_class UiState.Uploading]}
       ∖ {[status_class UiState.Filled]}) ∪ {[status_class s]}.
Proof.
  unfold toggleStatus, UiState.members. cbn. unfold classList_toggle.
  generalize (classList (nodes_wrapper u)). intros X.
  destruct s; cbn; status_sets.
Qed.

(** X8. Tunes and status do not interfere. [toggleStatus] leaves the class
    of every tune whose name is not a status value as it was. [applyTune]
    under a name with white space in it throws an [InvalidCharacterError]
    and changes nothing. Under any other name it returns, with the tune's
    class on the wrapper exactly when [status] is true, every other class
    as it was, and, when the name is not a status value, the status classes
    as they were. Of two [toggleStatus] calls in a row only the second
    counts. *)
Theorem tunes_and_status_are_independent :
  (forall s u tuneName,
     tune_name_ok tuneName = true ->
     classList_contains (modifier_class tuneName)
       (classList (nodes_wrapper (toggleStatus s u)))
     = classList_contains (modifier_class tuneName)
         (classList (nodes_wrapper u))) /\
  (forall tuneName status u,
     contains_ascii_whitespace tuneName = true ->
     applyTune tuneName status u
     = Throw (DOMException "InvalidCharacterError") /\
     ui_step (OpApplyTune tuneName status) u = u) /\
  (forall tuneName status u,
     contains_ascii_whitespace tuneName = false ->
     let u' := ui_step (OpApplyTune tuneName status) u in
     applyTune tuneName status u = Return u' /\
     classList_contains (modifier_class tuneName)
       (classList (nodes_wrapper u')) = status /\
     (forall token,
        token <> modifier_class tuneName ->
        classList_contains token (classList (nodes_wrapper u'))
        = classList_contains token (classList (nodes_wrapper u))) /\
     (tune_name_ok tuneName = true ->
      active_statuses u' = active_statuses u)) /\
  (forall s s' u, toggleStatus s (toggleStatus s' u) = toggleStatus s u).
Proof.
  split; [|split; [|split; [|]]].
  - intros s u n Hok. apply wrapper_class_toggleStatus.
    intros s' H%modifier_class_inj. subst n. by destruct s'.
  - intros n b u Hw. cbn [ui_step]. rewrite applyTune_spec, Hw. done.
  - intros n b u Hw u'. subst u'. cbn [ui_step].
    rewrite applyTune_spec, Hw. split; [reflexivity|].
    split; [|split].
    + unfold tune_applied, classList_contains, classList_toggle. cbn.
      destruct b; [apply bool_decide_eq_true | apply bool_decide_eq_false];
        set_solver.
    + intros token Hne.
      unfold tune_applied, classList_contains, classList_toggle. cbn.
      apply bool_decide_ext. destruct b; set_solver.
    + intros Hok. by apply active_statuses_applyTune.
  - intros s s' u.
    assert (nodes_wrapper (toggleStatus s (toggleStatus s' u))
            = nodes_wrapper (toggleStatus s u)) as Hw.
    { assert (forall s0 u0, nodes_wrapper (toggleStatus s0 u0)
               = set_classList (classList (nodes_wrapper (toggleStatus s0 u0)))
                   (nodes_wrapper u0)) as Hshape by reflexivity.
      rewrite (Hshape s (toggleStatus s' u)), (Hshape s u), (Hshape s' u).
      unfold set_classList. cbn. f_equal.
      rewrite !toggleStatus_wrapper_classes.
      generalize (classList (nodes_wrapper u)). intros X.
      destruct s, s'; status_sets. }
    assert (forall s0 u0, toggleStatus s0 u0
              = set_wrapper (nodes_wrapper (toggleStatus s0 u0)) u0) as Hui
      by reflexivity.
    rewrite (Hui s (toggleStatus s' u)), Hw, (Hui s u).
    reflexivity.
Qed.

Lemma tunes_and_status_are_independent_witness :
  applyTune "with border" true (showPreloader example_ui)
  = Throw (DOMException "InvalidCharacterError") /\
  classList_contains "video-tool--caption"
    (classList
       (nodes_wrapper
          (ui_step (OpApplyTune "caption" true) (showPreloader example_ui))))
  = true /\
  active_statuses
    (ui_step (OpApplyTune "caption" true) (showPreloader example_ui))
  = active_statuses (showPreloader example_ui).
Proof.
  pose proof tunes_and_status_are_independent as (_ & Hthrow & Hok & _).
  split; [apply (Hthrow "with border" true); reflexivity|].
  destruct (Hok "caption" true (showPreloader example_ui) eq_refl)
    as (_ & Hclass & _ & Hstatus).
  split; [exact Hclass | apply Hstatus; reflexivity].
Defined.

Lemma container_media_toggleStatus s u :
  container_media (toggleStatus s u) = container_media u.
Proof. reflexivity. Qed.

Lemma nodes_videoEl_toggleStatus s u :
  nodes_videoEl (toggleStatus s u) = nodes_videoEl u.
Proof. reflexivity. Qed.

Lemma nodes_videoEl_fillVideo url u :
  nodes_videoEl (fillVideo url u) = Some (length (container_media u)).
Proof. reflexivity. Qed.

(** X7. A replaced media element keeps its listener. After [fillVideo(url1)],
    [showPreloader] and [fillVideo(url2)] both elements are in the container
    and [nodes.videoEl] is the second; the status is Uploading; and the ready
    event of the first, replaced element still makes the status Filled,
    although the second element has fired nothing. *)
Theorem replaced_element_still_fills url1 url2 u :
  let n := length (container_media u) in
  let ready1 := if test mp4_pattern url1 then "loadeddata" else "load" in
  let u2 := fillVideo url2 (showPreloader (fillVideo url1 u)) in
  nodes_videoEl u2 = Some (S n) /\
  container_media u2 =
    (container_media u ++ [fillVideo_element url1; fillVideo_element url2])%list /\
  active_statuses u2 = [UiState.Uploading] /\
  active_statuses (dispatchEvent n ready1 u2) = [UiState.Filled].
Proof.
  intros n ready1 u2. subst u2 n.
  assert (container_media (fillVideo url2 (showPreloader (fillVideo url1 u)))
          = (container_media u ++ [fillVideo_element url1; fillVideo_element url2])%list)
    as Hm.
  { rewrite container_media_fillVideo. unfold showPreloader.
    rewrite container_media_toggleStatus, container_media_fillVideo.
    by rewrite <- app_assoc. }
  split.
  { rewrite nodes_videoEl_fillVideo. unfold showPreloader.
    rewrite container_media_toggleStatus, container_media_fillVideo.
    rewrite length_app. cbn. f_equal. lia. }
  split; [exact Hm|]. split.
  { change (active_statuses (showPreloader (fillVideo url1 u))
            = [UiState.Uploading]). apply toggleStatus_active. }
  unfold dispatchEvent. rewrite Hm.
  rewrite lookup_app_r by lia. rewrite Nat.sub_diag. cbn [lookup list_lookup].
  rewrite fillVideo_element_listeners. fold ready1. cbn [foldl].
  rewrite String.eqb_refl. apply toggleStatus_active.
Qed.


(* ===================================================================== *)
(** ** Further properties of the patterns *)
(* ===================================================================== *)

Lemma matches_seq_app r r' s1 s2 :
  matches r s1 = true -> matches r' s2 = true ->
  matches (ReSeq r r') (s1 +:+ s2) = true.
Proof.
  revert r. induction s1 as [|c s1 IH]; intros r H1 H2.
  - change (matches r "") with (nullable r) in H1.
    change ("" +:+ s2) with s2. destruct s2 as [|c s2].
    + change (nullable r && nullable r' = true).
      change (nullable r' = true) in H2. by rewrite H1, H2.
    + change (matches (deriv c r') s2 = true) in H2.
      change (matches (deriv c (ReSeq r r')) s2 = true).
      cbn [deriv]. rewrite matches_alt, H1, H2. apply orb_true_r.
  - change (matches (deriv c r) s1 = true) in H1.
    change (matches (deriv c (ReSeq r r')) (s1 +:+ s2) = true).
    cbn [deriv]. rewrite matches_alt.
    rewrite (IH (deriv c r)); [reflexivity | exact H1 | exact H2].
Qed.

Lemma matches_star_chars p s :
  forallb p (list_ascii_of_string s) = true ->
  matches (ReStar (ReChar p)) s = true.
Proof.
  induction s as [|c s IH]; [reflexivity|].
  cbn. intros [Hc Hs]%andb_prop. rewrite Hc, matches_seq_eps. by apply IH.
Qed.

Lemma matches_plus_chars p s :
  s <> "" -> forallb p (list_ascii_of_string s) = true ->
  matches (re_plus (ReChar p)) s = true.
Proof.
  destruct s as [|c s]; [done|]. intros _ [Hc Hs]%andb_prop.
  unfold re_plus. cbn. rewrite matches_alt, Hc, matches_seq_eps.
  by rewrite matches_star_chars.
Qed.

Lemma test_of_matches r s : matches r s = true -> test r s = true.
Proof. intros H. destruct s; cbn; cbn in H; by rewrite H. Qed.

Lemma list_ascii_of_string_app a b :
  list_ascii_of_string (a +:+ b)
  = (list_ascii_of_string a ++ list_ascii_of_string b)%list.
Proof.
  induction a as [|c a IH]; [reflexivity|].
  change (c :: list_ascii_of_string (a +:+ b)
          = c :: (list_ascii_of_string a ++ list_ascii_of_string b)%list).
  by rewrite IH.
Qed.

Lemma string_app_assoc a b c : (a +:+ b) +:+ c = a +:+ (b +:+ c).
Proof.
  induction a as [|x a IH]; [reflexivity|].
  change (String x ((a +:+ b) +:+ c) = String x (a +:+ (b +:+ c))).
  by rewrite IH.
Qed.

Lemma ends_with_app w p s : ends_with w s -> ends_with w (p +:+ s).
Proof.
  intros [q ->]. exists (p +:+ q). by rewrite string_app_assoc.
Qed.

Lemma webm_does_not_end_in_mp4 s : ends_with ".webm" s -> ~ ends_with ".mp4" s.
Proof.
  intros [p ->] [q Hq]. apply (f_equal list_ascii_of_string) in Hq.
  rewrite !list_ascii_of_string_app in Hq.
  apply (f_equal (@last ascii)) in Hq.
  change (list_ascii_of_string ".webm")
    with (list_ascii_of_string ".web" ++ ["m"%char])%list in Hq.
  change (list_ascii_of_string ".mp4")
    with (list_ascii_of_string ".mp" ++ ["4"%char])%list in Hq.
  rewrite !app_assoc, !last_snoc in Hq. discriminate.
Qed.

Lemma fillVideo_element_by_suffix url :
  (ends_with ".mp4" url -> fillVideo_element url = video_element url) /\
  (~ ends_with ".mp4" url -> fillVideo_element url = image_element url).
Proof.
  pose proof (test_lit ".mp4" url) as Hspec. fold mp4_pattern in Hspec.
  unfold fillVideo_element. destruct (test mp4_pattern url).
  - split; [reflexivity|]. intros H. exfalso. apply H. by apply Hspec.
  - split; [|reflexivity]. intros H. apply Hspec in H. discriminate.
Qed.

(** X13. For every non-empty [host] without white space, the urls
    [http(s)://host.webm] and [http(s)://host.mp4] are both matched by the
    paste pattern, but [fillVideo] shows only the [.mp4] one in a video
    element: the [.webm] one gets an image element. *)
Theorem pasted_video_urls_and_their_elements (secure : bool) host :
  host <> "" ->
  forallb non_space (list_ascii_of_string host) = true ->
  let scheme := if secure then "https://" else "http://" in
  test pasteConfig_patterns_video (scheme +:+ host +:+ ".webm") = true /\
  fillVideo_element (scheme +:+ host +:+ ".webm")
  = image_element (scheme +:+ host +:+ ".webm") /\
  test pasteConfig_patterns_video (scheme +:+ host +:+ ".mp4") = true /\
  fillVideo_element (scheme +:+ host +:+ ".mp4")
  = video_element (scheme +:+ host +:+ ".mp4").
Proof.
  intros Hne Hns scheme.
  assert (forall ext, ext = "webm" \/ ext = "mp4" ->
            test pasteConfig_patterns_video (scheme +:+ host +:+ "." +:+ ext)
            = true) as Hpat.
  { intros ext Hext. apply test_of_matches. unfold pasteConfig_patterns_video.
    replace (scheme +:+ host +:+ "." +:+ ext)
      with ("http" +:+ ((if secure then "s" else "") +:+
            ("://" +:+ (host +:+ ("." +:+ (ext +:+ ""))))))
      by (subst scheme; destruct secure, Hext as [-> | ->]; reflexivity).
    apply matches_seq_app; [reflexivity|].
    apply matches_seq_app; [by destruct secure|].
    apply matches_seq_app; [reflexivity|].
    apply matches_seq_app; [by apply matches_plus_chars|].
    apply matches_seq_app; [reflexivity|].
    apply matches_seq_app; [by destruct Hext as [-> | ->] | reflexivity]. }
  split; [apply (Hpat "webm"); auto|].
  split.
  { apply fillVideo_element_by_suffix, webm_does_not_end_in_mp4.
    do 2 apply ends_with_app. by exists "". }
  split; [apply (Hpat "mp4"); auto|].
  apply fillVideo_element_by_suffix. do 2 apply ends_with_app. by exists "".
Qed.

Lemma pasted_video_urls_and_their_elements_witness :
  test pasteConfig_patterns_video "https://cdn.example/v/clip.webm" = true /\
  fillVideo_element "https://cdn.example/v/clip.webm"
  = image_element "https://cdn.example/v/clip.webm" /\
  test pasteConfig_patterns_video "https://cdn.example/v/clip.mp4" = true /\
  fillVideo_element "https://cdn.example/v/clip.mp4"
  = video_element "https://cdn.example/v/clip.mp4".
Proof.
  apply (pasted_video_urls_and_their_elements true "cdn.example/v/clip");
    [discriminate | reflexivity].
Defined.


(* ===================================================================== *)
(** ** Further properties of the controller *)
(* ===================================================================== *)

Section ControllerProperties.

Variable JSON_stringify : JsVal -> string.
Variable Number_toString : float -> string.
Variable IconPicture : string.
Variable IconText : string.
Variable reserialize : string -> string.

Lemma set_video_falsy f w :
  ToBoolean f = false ->
  set_video Number_toString f w =
  (Return tt,
   mkWorld
     (mkTool (api (tool w)) (config (tool w)) (ui (tool w))
        (set_file_field (JObj [("url", JStr "")]) (_data (tool w)))
        (isCaptionEnabled (tool w)))
     (notifier_shown w) (console_logged w) (actions_called w)).
Proof.
  intros Hf. unfold set_video, bind, modify_data, modify_tool. cbn.
  unfold js_or. rewrite Hf. reflexivity.
Qed.

Lemma Get_other_property data k k' x :
  Get data k = Return x -> exists y, Get data k' = Return y.
Proof. destruct data; try discriminate; intros _; cbn; eauto. Qed.

(** X4. The constructor throws a [TypeError] when [data] is [undefined] or
    [null]. For every other [data], whatever its shape, it returns: the
    record is [data.file || { url: '' }], [data.caption || ''] and
    [data.aspectRatio || 1], the caption element has been assigned that
    caption as markup (it reads the document's serialisation of it, and the
    empty string for the empty caption), the caption flag is unset and
    nothing has been notified. *)
Theorem constructor_reads_data_with_defaults data cfg a ro :
  let built :=
    VideoTool_constructor Number_toString IconPicture reserialize data cfg a ro in
  (data = JUndefined \/ data = JNull ->
   fst built = Throw (TypeError "file")) /\
  (forall f c r,
     Get data "file" = Return f ->
     Get data "caption" = Return c ->
     Get data "aspectRatio" = Return r ->
     fst built = Return tt /\
     _data (tool (snd built))
     = {| caption := js_or c (JStr "");
          aspectRatio := js_or r (JNum 1);
          file := js_or f (JObj [("url", JStr "")]) |} /\
     innerHTML (nodes_caption (ui (tool (snd built))))
     = innerHTML_after_assignment reserialize
         (ToString Number_toString (js_or c (JStr ""))) /\
     isCaptionEnabled (tool (snd built)) = None /\
     notifier_shown (snd built) = []).
Proof.
  intros built. subst built. split.
  - intros [-> | ->]; reflexivity.
  - intros f c r Hf Hc Hr.
    unfold VideoTool_constructor, set_data, bind, lift. rewrite Hf.
    destruct (ToBoolean f) eqn:Htf.
    + destruct (Get_truthy f "url" Htf) as [url Hurl].
      rewrite (set_video_truthy Number_toString f url _ Htf Hurl).
      replace (js_or f (JObj [("url", JStr "")])) with f
        by (unfold js_or; rewrite Htf; reflexivity).
      cbn. rewrite Hc. cbn. rewrite Hr. cbn.
      destruct (default None (user_features cfg)) as [[[|]|]|]; cbn;
        rewrite ?Hc; cbn; rewrite ?try_ui_applyTune_caption;
        destruct (ToBoolean url); cbn; repeat split; reflexivity.
    + rewrite (set_video_falsy f _ Htf).
      replace (js_or f (JObj [("url", JStr "")])) with (JObj [("url", JStr "")])
        by (unfold js_or; rewrite Htf; reflexivity).
      cbn. rewrite Hc. cbn. rewrite Hr. cbn.
      destruct (default None (user_features cfg)) as [[[|]|]|]; cbn;
        rewrite ?Hc; cbn; rewrite ?try_ui_applyTune_caption;
        repeat split; reflexivity.
Qed.

(** X2. A tool constructed from data without [file], [caption] and
    [aspectRatio] (a new block), in any host and with any configuration,
    renders with Empty as its only status and no media element; [save] then
    returns the default record (an empty url, an empty caption, the aspect
    ratio 1), which [validate] reports as invalid. *)
Theorem new_block_renders_empty_and_saves_defaults props cfg a ro :
  lookup_prop "file" props = JUndefined ->
  lookup_prop "caption" props = JUndefined ->
  lookup_prop "aspectRatio" props = JUndefined ->
  let built :=
    VideoTool_constructor Number_toString IconPicture reserialize
      (JObj props) cfg a ro in
  let rendered := render (snd built) in
  fst built = Return tt /\
  active_statuses (ui (tool (snd rendered))) = [UiState.Empty] /\
  nodes_videoEl (ui (tool (snd rendered))) = None /\
  fst (save (snd rendered))
  = Return {| caption := JStr "";
              aspectRatio := JNum 1;
              file := JObj [("url", JStr "")] |} /\
  validate (data_object {| caption := JStr "";
                           aspectRatio := JNum 1;
                           file := JObj [("url", JStr "")] |})
  = Return false.
Proof.
  intros Hf Hc Hr built rendered. subst rendered built.
  unfold VideoTool_constructor, set_data, set_video, bind, lift. cbn.
  rewrite Hf. cbn. rewrite Hc. cbn. rewrite Hr. cbn.
  destruct (default None (user_features cfg)) as [[[|]|]|]; cbn;
    rewrite ?Hc; cbn; repeat split; try reflexivity;
    apply toggleStatus_active.
Qed.

(** X5. [onUpload] given [null] or [undefined] throws a [TypeError] before
    anything is changed: no notification, and the preloader stays. Given a
    boolean, a number or a string it takes the failure path. *)
Theorem onUpload_response_not_an_object w :
  onUpload JSON_stringify Number_toString JNull w
  = (Throw (TypeError "success"), w) /\
  onUpload JSON_stringify Number_toString JUndefined w
  = (Throw (TypeError "success"), w) /\
  (forall b,
     onUpload JSON_stringify Number_toString (JBool b) w
     = uploadingFailed ("incorrect response: " +:+ JSON_stringify (JBool b)) w) /\
  (forall x,
     onUpload JSON_stringify Number_toString (JNum x) w
     = uploadingFailed ("incorrect response: " +:+ JSON_stringify (JNum x)) w) /\
  (forall text,
     onUpload JSON_stringify Number_toString (JStr text) w
     = uploadingFailed ("incorrect response: " +:+ JSON_stringify (JStr text)) w).
Proof. repeat split. Qed.

(** The world after [onUpload] is given a response with a truthy [success]
    and a file object with a non-empty string url. *)
Lemma onUpload_displays response success props url w :
  Get response "success" = Return success -> ToBoolean success = true ->
  Get response "file" = Return (JObj props) ->
  lookup_prop "url" props = JStr url -> url <> "" ->
  onUpload JSON_stringify Number_toString response w =
  (Return tt,
   mkWorld
     (mkTool (api (tool w)) (config (tool w)) (fillVideo url (ui (tool w)))
        (set_file_field (JObj props) (_data (tool w)))
        (isCaptionEnabled (tool w)))
     (notifier_shown w) (console_logged w) (actions_called w)).
Proof.
  intros Hs Hts Hf Hurl Hne.
  rewrite (onUpload_accepts _ _ response success (JObj props) w Hs Hf)
    by (rewrite Hts; reflexivity).
  rewrite (set_video_truthy Number_toString (JObj props) (JStr url) w)
    by (cbn; congruence).
  cbn. apply String.eqb_neq in Hne. rewrite Hne. reflexivity.
Qed.

(** X6. When two valid responses arrive one after the other, the record's
    file is that of the second, both elements have been appended to the
    container in the order of arrival, [nodes.videoEl] is the second, and
    nothing has been notified. *)
Theorem overlapping_uploads_last_answer_wins
    responseA responseB successA successB propsA propsB urlA urlB w :
  Get responseA "success" = Return successA -> ToBoolean successA = true ->
  Get responseA "file" = Return (JObj propsA) ->
  lookup_prop "url" propsA = JStr urlA -> urlA <> "" ->
  Get responseB "success" = Return successB -> ToBoolean successB = true ->
  Get responseB "file" = Return (JObj propsB) ->
  lookup_prop "url" propsB = JStr urlB -> urlB <> "" ->
  let afterA := snd (onUpload JSON_stringify Number_toString responseA w) in
  let afterB := onUpload JSON_stringify Number_toString responseB afterA in
  fst afterB = Return tt /\
  file (_data (tool (snd afterB))) = JObj propsB /\
  container_media (ui (tool (snd afterB)))
  = (container_media (ui (tool w))
       ++ [fillVideo_element urlA; fillVideo_element urlB])%list /\
  nodes_videoEl (ui (tool (snd afterB)))
  = Some (S (length (container_media (ui (tool w))))) /\
  notifier_shown (snd afterB) = notifier_shown w.
Proof.
  intros HsA HtA HfA HuA HnA HsB HtB HfB HuB HnB afterA afterB.
  subst afterB afterA.
  rewrite (onUpload_displays responseA successA propsA urlA w) by done.
  cbn [snd].
  rewrite (onUpload_displays responseB successB propsB urlB) by done.
  cbn [fst snd tool ui _data file set_file_field notifier_shown].
  rewrite !container_media_fillVideo, nodes_videoEl_fillVideo,
    container_media_fillVideo, <- app_assoc, length_app.
  cbn. repeat split. f_equal. lia.
Qed.

Lemma availableTunes_unfiltered c :
  features_caption c <> Some (CaptionBool false) ->
  availableTunes IconText c =
  (default [] (actions c) ++
   match features_caption c with
   | Some CaptionOptional =>
       [ {| name := "caption"; icon := IconText; title := "With caption";
            toggle := Some true; has_action := false |} ]
   | _ => []
   end)%list.
Proof.
  intros Hne. unfold availableTunes, tunes. cbn [app].
  assert (forall l : list ActionConfig,
    filter (fun tune =>
       (if String.eqb (name tune) "caption"
        then match features_caption c with
             | Some (CaptionBool false) => false
             | _ => true
             end
        else true) = true) l = l) as Hall.
  { intros l. induction l as [|x l IH]; [reflexivity|].
    rewrite filter_cons, IH. rewrite decide_True; [reflexivity|].
    destruct (String.eqb (name x) "caption"); [|reflexivity].
    destruct (features_caption c) as [[[|]|]|]; congruence. }
  destruct (features_caption c) as [[[|]|]|]; rewrite Hall;
    rewrite ?app_nil_r; reflexivity.
Qed.

Lemma availableTunes_without_caption c :
  features_caption c = Some (CaptionBool false) ->
  map name (availableTunes IconText c)
  = List.filter (fun n => negb (String.eqb n "caption"))
      (map name (default [] (actions c))).
Proof.
  intros Hfc. unfold availableTunes, tunes. rewrite Hfc. cbn [app].
  generalize (default [] (actions c)). intros l.
  induction l as [|x l IH]; [reflexivity|].
  rewrite filter_cons. cbn [map List.filter].
  destruct (String.eqb (name x) "caption"); cbn [negb].
  - rewrite decide_False by discriminate. exact IH.
  - rewrite decide_True by reflexivity. cbn [map]. by rewrite IH.
Qed.

(** X9. The names of the menu [renderSettings] returns are: the user's
    actions without those named [caption] when the caption feature is
    [false]; the user's actions followed by the tool's own [caption] toggle
    when it is ['optional']; the user's actions as they are otherwise. Only
    an entry named [caption] can be active, and it is active exactly when the
    caption flag is true. *)
Theorem renderSettings_menu t :
  let menu := renderSettings IconText t in
  let user := default [] (actions (config t)) in
  match features_caption (config t) with
  | Some (CaptionBool false) =>
      map entry_name menu
      = List.filter (fun n => negb (String.eqb n "caption")) (map name user)
  | Some CaptionOptional =>
      map entry_name menu = (map name user ++ ["caption"])%list /\
      last menu =
        Some {| entry_icon := IconText;
                entry_label := i18n_t (api t) "With caption";
                entry_name := "caption";
                entry_toggle := Some true;
                entry_isActive := default false (isCaptionEnabled t) |}
  | _ => map entry_name menu = map name user
  end /\
  (forall e, e ∈ menu ->
     entry_isActive e =
     if String.eqb (entry_name e) "caption"
     then default false (isCaptionEnabled t) else false).
Proof.
  intros menu user. subst menu user. unfold renderSettings.
  rewrite <- list_fmap_compose.
  change (map (entry_name ∘ _) ?l) with (map name l).
  split.
  - destruct (features_caption (config t)) as [[[|]|]|] eqn:Hfc.
    + rewrite availableTunes_unfiltered by congruence.
      by rewrite Hfc, app_nil_r.
    + by apply availableTunes_without_caption.
    + rewrite availableTunes_unfiltered by congruence. rewrite Hfc.
      rewrite !map_app. cbn. split; [reflexivity|].
      by rewrite last_snoc.
    + rewrite availableTunes_unfiltered by congruence.
      by rewrite Hfc, app_nil_r.
  - intros e [tune [-> Hin]]%list_elem_of_fmap. reflexivity.
Qed.

End ControllerProperties.

Lemma constructor_reads_data_with_defaults_witness :
  let d :=
    JObj [("file", JObj [("url", JStr "https://x/a.png")]);
          ("caption", JStr "Tom & Jerry"); ("aspectRatio", JNum 2)] in
  fst (example_tool d) = Return tt /\
  _data (tool (snd (example_tool d)))
  = {| caption := JStr "Tom & Jerry";
       aspectRatio := JNum 2;
       file := JObj [("url", JStr "https://x/a.png")] |} /\
  innerHTML (nodes_caption (ui (tool (snd (example_tool d)))))
  = "Tom &amp; Jerry" /\
  isCaptionEnabled (tool (snd (example_tool d))) = None /\
  notifier_shown (snd (example_tool d)) = [].
Proof.
  intros d.
  apply (proj2 (constructor_reads_data_with_defaults example_Number_toString
                  example_IconPicture example_reserialize d example_config
                  example_api false)
           (JObj [("url", JStr "https://x/a.png")])
           (JStr "Tom & Jerry") (JNum 2)); reflexivity.
Defined.

Lemma new_block_renders_empty_and_saves_defaults_witness :
  fst (example_tool (JObj [])) = Return tt /\
  active_statuses (ui (tool (snd (and_then (example_tool (JObj [])) render))))
  = [UiState.Empty] /\
  nodes_videoEl (ui (tool (snd (and_then (example_tool (JObj [])) render))))
  = None /\
  fst (save (snd (and_then (example_tool (JObj [])) render)))
  = Return {| caption := JStr "";
              aspectRatio := JNum 1;
              file := JObj [("url", JStr "")] |} /\
  validate (data_object {| caption := JStr "";
                           aspectRatio := JNum 1;
                           file := JObj [("url", JStr "")] |})
  = Return false.
Proof.
  apply (new_block_renders_empty_and_saves_defaults example_Number_toString
           example_IconPicture example_reserialize [] example_config
           example_api false);
    reflexivity.
Defined.

Lemma overlapping_uploads_last_answer_wins_witness :
  let fileA := [("url", JStr "https://x/first.mp4")] in
  let fileB := [("url", JStr "https://x/second.png"); ("id", JNum 2)] in
  let responseA := JObj [("success", JNum 1); ("file", JObj fileA)] in
  let responseB := JObj [("success", JBool true); ("file", JObj fileB)] in
  let w := snd (example_tool (JObj [])) in
  let afterA :=
    snd (onUpload example_JSON_stringify example_Number_toString responseA w) in
  let afterB :=
    onUpload example_JSON_stringify example_Number_toString responseB afterA in
  fst afterB = Return tt /\
  file (_data (tool (snd afterB))) = JObj fileB /\
  container_media (ui (tool (snd afterB)))
  = (container_media (ui (tool w))
       ++ [fillVideo_element "https://x/first.mp4";
           fillVideo_element "https://x/second.png"])%list /\
  nodes_videoEl (ui (tool (snd afterB)))
  = Some (S (length (container_media (ui (tool w))))) /\
  notifier_shown (snd afterB) = notifier_shown w.
Proof.
  intros fileA fileB responseA responseB w afterA afterB.
  apply (overlapping_uploads_last_answer_wins example_JSON_stringify
           example_Number_toString responseA responseB (JNum 1) (JBool true)
           fileA fileB "https://x/first.mp4" "https://x/second.png" w);
    try reflexivity; discriminate.
Defined.

Lemma renderSettings_menu_witness :
  let t :=
    {| api := example_api;
       config :=
         {| captionPlaceholder := "Caption"; buttonContent := None;
            actions :=
              Some [ {| name := "flip"; icon := "<f>"; title := "Flip";
                        toggle := Some true; has_action := true |} ];
            features_caption := Some CaptionOptional |};
       ui := example_ui;
       _data := mkData (JStr "") (JNum 1) (JObj [("url", JStr "")]);
       isCaptionEnabled := Some true |} in
  map entry_name (renderSettings "<t>" t) = ["flip"; "caption"] /\
  map entry_isActive (renderSettings "<t>" t) = [false; true].
Proof.
  intros t. split.
  - exact (proj1 (proj1 (renderSettings_menu "<t>" t))).
  - reflexivity.
Defined.

(** X10. Activating a tune that has an action function calls that function
    with the tune's name and changes nothing in the tool, whatever the name.
    Activating the caption tune (without action function) twice brings the
    caption flag and the caption class back to the activity they had, but
    the caption text is the empty string afterwards, in the record and in
    the element. *)
Theorem onActivate_user_action_and_double_toggle :
  (forall tune w,
     has_action tune = true ->
     onActivate tune w =
     (Return tt,
      mkWorld (tool w) (notifier_shown w) (console_logged w)
        (actions_called w ++ [name tune])%list)) /\
  (forall tune w,
     has_action tune = false ->
     name tune = "caption" ->
     let once := snd (onActivate tune w) in
     let twice := snd (onActivate tune once) in
     isCaptionEnabled (tool once)
     = Some (negb (default false (isCaptionEnabled (tool w)))) /\
     isCaptionEnabled (tool twice)
     = Some (default false (isCaptionEnabled (tool w))) /\
     classList_contains (modifier_class "caption")
       (classList (nodes_wrapper (ui (tool twice))))
     = default false (isCaptionEnabled (tool w)) /\
     caption (_data (tool twice)) = JStr "" /\
     innerHTML (nodes_caption (ui (tool twice))) = "" /\
     file (_data (tool twice)) = file (_data (tool w))).
Proof.
  split.
  - intros tune w Hact. unfold onActivate. rewrite Hact. reflexivity.
  - intros tune w Hact Hname once twice. subst twice once.
    unfold onActivate. rewrite Hact, Hname. cbn.
    destruct (isCaptionEnabled (tool w)) as [[|]|]; cbn;
      repeat split;
      unfold classList_contains, classList_toggle;
      try (apply bool_decide_eq_true; set_solver);
      try (apply bool_decide_eq_false; set_solver).
Qed.

Lemma onActivate_user_action_and_double_toggle_witness :
  let tune :=
    {| name := "caption"; icon := "<c>"; title := "Mine"; toggle := None;
       has_action := true |} in
  let w := snd (example_tool saved_png) in
  onActivate tune w =
  (Return tt,
   mkWorld (tool w) (notifier_shown w) (console_logged w) ["caption"]).
Proof.
  intros tune w.
  apply (proj1 onActivate_user_action_and_double_toggle tune w).
  reflexivity.
Defined.

(** X11. [save] reads the live elements, not the record: when [nodes.videoEl]
    is a video element whose dimensions the browser has set to [ww] and [hh]
    and the caption element holds [html], [save] returns the caption [html]
    and the aspect ratio [ww / hh], whatever the record held, and the
    record's file. *)
Theorem save_reads_live_caption_and_dimensions w i el html ww hh :
  nodes_videoEl (ui (tool w)) = Some i ->
  container_media (ui (tool w)) !! i = Some el ->
  tagName el = "VIDEO" ->
  let edited u :=
    loadMetadata i ww hh (set_caption (set_innerHTML html (nodes_caption u)) u) in
  let after := save (snd (modify_ui edited w)) in
  fst after
  = Return {| caption := JStr html;
              aspectRatio := JNum (ww / hh)%float;
              file := file (_data (tool w)) |}.
Proof.
  intros Hv Hi Htag edited after. subst after edited.
  unfold save, bind, get_tool, modify_data, modify_ui, modify_tool, ret. cbn.
  unfold videoEl_prop, loadMetadata. cbn. rewrite Hi, Htag. cbn.
  rewrite Hv. rewrite list_lookup_insert_eq by (eapply lookup_lt_Some; eauto).
  reflexivity.
Qed.

Lemma save_reads_live_caption_and_dimensions_witness :
  let w := snd (example_tool saved_mp4) in
  let edited u :=
    loadMetadata 0 1920 1080
      (set_caption (set_innerHTML "a <b>clip</b>" (nodes_caption u)) u) in
  fst (save (snd (modify_ui edited w)))
  = Return {| caption := JStr "a <b>clip</b>";
              aspectRatio := JNum (1920 / 1080)%float;
              file := JObj [("url", JStr "https://x/a.mp4")] |}.
Proof.
  intros w edited.
  apply (save_reads_live_caption_and_dimensions w 0
           (fillVideo_element "https://x/a.mp4") "a <b>clip</b>" 1920 1080);
    reflexivity.
Defined.

(** X1. [save] called twice in a row returns the same record twice, and the
    second call leaves the world as the first left it. *)
Theorem save_twice w :
  fst (save (snd (save w))) = fst (save w) /\
  snd (save (snd (save w))) = snd (save w).
Proof. destruct w as [[a c u d e] n l k]. split; reflexivity. Qed.

(** X3. [render] enables the caption (the flag set to true and the caption
    class put on the wrapper) exactly when the caption feature is undefined,
    or [true], or ['optional'] with a truthy caption in the record; otherwise
    the flag is left as it was. Either way [render] ends in the Empty
    status and leaves the record as it was. *)
Theorem render_caption_rule w :
  let enabled :=
    match features_caption (config (tool w)) with
    | None | Some (CaptionBool true) => true
    | Some CaptionOptional => ToBoolean (caption (_data (tool w)))
    | Some (CaptionBool false) => false
    end in
  let after := render w in
  fst after = Return (nodes_wrapper (ui (tool (snd after)))) /\
  isCaptionEnabled (tool (snd after))
  = (if enabled then Some true else isCaptionEnabled (tool w)) /\
  applyTune "caption" true (ui (tool w))
  = Return (ui_step (OpApplyTune "caption" true) (ui (tool w))) /\
  ui (tool (snd after))
  = Ui_render (if enabled
               then ui_step (OpApplyTune "caption" true) (ui (tool w))
               else ui (tool w)) /\
  active_statuses (ui (tool (snd after))) = [UiState.Empty] /\
  _data (tool (snd after)) = _data (tool w).
Proof.
  destruct w as [[a c u d e] n l k]. cbn.
  destruct (features_caption c) as [[[|]|]|]; cbn;
    try destruct (ToBoolean (caption d)); cbn;
    repeat split; apply toggleStatus_active.
Qed.

Section Paste.

Variable fetch_blob : string -> Outcome Blob.

(** X12. [onPaste] never touches the record and never notifies. A pattern
    paste and a tag whose [src] does not start with [blob:] are uploaded by
    url, with the preloader shown at once. A pasted file, and a tag whose
    [src] starts with [blob:] once its blob is fetched, are uploaded by file,
    with nothing shown yet; a [blob:] source is never handed on as a url, and
    when its fetch fails nothing is requested. *)
Theorem onPaste_routes_to_the_uploader event s :
  let after := onPaste fetch_blob event s in
  let by_url url :=
    fst after = Return tt /\
    uploader_calls (snd after) = (uploader_calls s ++ [UploadByUrl url])%list /\
    active_statuses (ui (tool (world (snd after)))) = [UiState.Uploading] in
  let by_file blob :=
    fst after = Return tt /\
    uploader_calls (snd after) = (uploader_calls s ++ [UploadByFile blob])%list /\
    world (snd after) = world s in
  _data (tool (world (snd after))) = _data (tool (world s)) /\
  notifier_shown (world (snd after)) = notifier_shown (world s) /\
  match event with
  | PastePattern url => by_url url
  | PasteFile blob => by_file blob
  | PasteTag src =>
      if String.prefix "blob:" src
      then match fetch_blob src with
           | Return blob => by_file blob
           | Throw e => after = (Throw e, s)
           end
      else by_url src
  end.
Proof.
  intros after by_url by_file. subst by_url by_file after.
  destruct s as [w calls].
  destruct event as [src | url | blob]; cbn;
    [destruct (String.prefix "blob:" src); [destruct (fetch_blob src)|] | |];
    cbn; repeat split; try reflexivity; apply toggleStatus_active.
Qed.

End Paste.


(* ===================================================================== *)
(** ** Runs of the controller *)
(* ===================================================================== *)

Section Runs.

Variable JSON_stringify : JsVal -> string.
Variable Number_toString : float -> string.
Variable fetch_blob : string -> Outcome Blob.
Variable IconPicture : string.
Variable reserialize : string -> string.

Lemma onUpload_cases response w :
  (response_rejected response = true /\ response_displayed response = false /\
   onUpload JSON_stringify Number_toString response w
   = uploadingFailed ("incorrect response: " +:+ JSON_stringify response) w) \/
  (response_rejected response = false /\ response_displayed response = true /\
   exists f url, ToBoolean f = true /\
     onUpload JSON_stringify Number_toString response w
     = (Return tt,
        update_world (fillVideo (ToString Number_toString url))
          (set_file_field f) w)) \/
  (response_rejected response = false /\ response_displayed response = false /\
   exists f, ToBoolean f = true /\
     onUpload JSON_stringify Number_toString response w
     = (Return tt, update_world (fun u => u) (set_file_field f) w)) \/
  (response_rejected response = false /\ response_displayed response = false /\
   exists e, onUpload JSON_stringify Number_toString response w = (Throw e, w)).
Proof.
  unfold response_rejected, response_displayed.
  destruct (Get response "success") as [success|e] eqn:Hs.
  2:{ right. right. right. repeat split. exists e.
      unfold onUpload, bind, lift. by rewrite Hs. }
  destruct (Get response "file") as [f|e] eqn:Hf.
  2:{ destruct response; cbn in Hs, Hf; discriminate. }
  destruct (ToBoolean success && ToBoolean f) eqn:Hacc.
  - apply andb_prop in Hacc as Hboth. destruct Hboth as [_ Htf].
    destruct (Get_truthy f "url" Htf) as [url Hurl]. rewrite Hurl.
    rewrite (onUpload_accepts JSON_stringify Number_toString response
               success f w Hs Hf Hacc).
    rewrite (set_video_truthy Number_toString f url w Htf Hurl).
    cbn [negb andb]. destruct (ToBoolean url).
    + right. left. repeat split. by exists f, url.
    + right. right. left. repeat split. exists f. split; [done|].
      by destruct w as [[] ? ? ?].
  - left. repeat split.
    by apply (onUpload_rejects JSON_stringify Number_toString response
                success f w Hs Hf).
Qed.

Lemma container_media_loadMetadata i w h u :
  map attributes (container_media (loadMetadata i w h u))
  = map attributes (container_media u) /\
  nodes_videoEl (loadMetadata i w h u) = nodes_videoEl u /\
  nodes_fileButton (loadMetadata i w h u) = nodes_fileButton u.
Proof.
  unfold loadMetadata. destruct (container_media u !! i) as [el|] eqn:Hi; [|done].
  destruct (String.eqb (tagName el) "VIDEO"); [|done].
  cbn. split; [|done].
  rewrite list_fmap_insert. cbn. apply list_insert_id.
  by rewrite list_lookup_fmap, Hi.
Qed.

Lemma active_statuses_fillCaption text u :
  active_statuses (fillCaption text u) = active_statuses u.
Proof. reflexivity. Qed.

Lemma appendCallback_of_constructed_button s :
  listeners (nodes_fileButton (ui (tool (world s)))) = [("click", OnSelectFile)] ->
  appendCallback s = call_uploader UploadSelectedFile s.
Proof. intros H. unfold appendCallback. rewrite H. reflexivity. Qed.

Ltac effect_done :=
  unfold step_effect; cbn;
  rewrite ?try_ui_applyTune_caption; cbn;
  rewrite ?app_nil_r;
  repeat match goal with
    | |- _ /\ _ => split
    | |- _ -> _ => intro
    end;
  try done;
  try (rewrite ?active_statuses_fillCaption,
         ?active_statuses_applyTune by reflexivity;
       first [ by left | by (right; eexists; apply toggleStatus_active)
             | by (eexists; apply toggleStatus_active)
             | apply toggleStatus_active | reflexivity ]).

Lemma tool_step_effect op s :
  listeners (nodes_fileButton (ui (tool (world s)))) = [("click", OnSelectFile)] ->
  step_effect fetch_blob op s (tool_step JSON_stringify Number_toString fetch_blob op s).
Proof.
  intros Hbutton. destruct op as
    [ | | tune | | event | | response | errorText | i ev | i w h | html ].
  - (* render *)
    destruct s as [[[a c u d e] n l k] calls]. unfold tool_step, in_world. cbn.
    destruct (features_caption c) as [[[|]|]|];
      try destruct (ToBoolean (caption d)); effect_done.
  - (* save *)
    destruct s as [[[a c u d e] n l k] calls]. effect_done.
  - (* onActivate *)
    destruct s as [[[a c u d e] n l k] calls].
    unfold tool_step, in_world, onActivate, tuneToggled. cbn.
    destruct (has_action tune); [effect_done|]. cbn.
    destruct (String.eqb_spec (name tune) "caption") as [-> | _];
      [|effect_done].
    destruct e as [[|]|]; effect_done.
  - (* appendCallback *)
    unfold tool_step. rewrite (appendCallback_of_constructed_button s Hbutton).
    destruct s as [[[a c u d e] n l k] calls]. effect_done.
  - (* onPaste *)
    destruct s as [[[a c u d e] n l k] calls].
    destruct event as [src | url | blob]; unfold step_effect, tool_step; cbn;
      [destruct (String.prefix "blob:" src); [destruct (fetch_blob src)|] | |];
      effect_done.
  - (* onPreview *)
    destruct s as [[[a c u d e] n l k] calls]. effect_done.
  - (* onUpload *)
    unfold tool_step, in_world, step_effect. cbn [notifies displays sets_status
      is_browser_dispatch request_of option_list].
    destruct (onUpload_cases response (world s))
      as [(Hr & Hd & ->) | [(Hr & Hd & f & url & Hf & ->)
         | [(Hr & Hd & f & Hf & ->) | (Hr & Hd & e & ->)]]];
      rewrite Hr, Hd; try rewrite uploadingFailed_spec;
      destruct s as [[[a c u d e'] n l k] calls]; cbn; rewrite ?app_nil_r;
      repeat match goal with
        | |- _ /\ _ => split
        | |- _ -> _ => intro
        end; try done;
      first [ by left | by (right; eexists; apply toggleStatus_active)
            | by (eexists; apply toggleStatus_active) | by eexists | idtac ].
  - (* onError *)
    unfold tool_step, in_world. rewrite uploadingFailed_spec.
    destruct s as [[[a c u d e] n l k] calls]. effect_done.
  - (* dispatch *)
    destruct s as [[[a c u d e] n l k] calls]. unfold step_effect. cbn.
    destruct (container_media_dispatchEvent i ev u) as (H1 & H2 & H3).
    rewrite H1, H2, H3, !app_nil_r.
    repeat split; try done. apply dispatchEvent_cases.
  - (* metadata *)
    destruct s as [[[a c u d e] n l k] calls]. unfold step_effect. cbn.
    destruct (container_media_loadMetadata i w h u) as (H1 & H2 & H3).
    rewrite H1, H2, H3, !app_nil_r.
    assert (active_statuses (loadMetadata i w h u) = active_statuses u) as Ha
      by apply active_statuses_wrapper, nodes_wrapper_loadMetadata.
    rewrite Ha. repeat split; try done. by left.
  - (* the user edits the caption *)
    destruct s as [[[a c u d e] n l k] calls]. effect_done.
Qed.

Lemma tool_run_snoc ops op s :
  tool_run JSON_stringify Number_toString fetch_blob (ops ++ [op]) s
  = tool_step JSON_stringify Number_toString fetch_blob op
      (tool_run JSON_stringify Number_toString fetch_blob ops s).
Proof. unfold tool_run. by rewrite foldl_app. Qed.

Lemma count_ops_snoc p ops op :
  count_ops p (ops ++ [op]) = count_ops p ops + (if p op then 1 else 0).
Proof.
  unfold count_ops. rewrite List.filter_app, length_app. cbn.
  by destruct (p op).
Qed.

Lemma videoEl_is_newest_snoc (m : list Element) el :
  match (m ++ [el])%list with
  | [] => None
  | _ :: rest => Some (length rest)
  end = Some (length m).
Proof. destruct m as [|x m]; cbn; [done|]. rewrite length_app. cbn. f_equal. lia. Qed.

(** What a run does to each part of the session. *)
Lemma tool_run_effect ops s0 :
  listeners (nodes_fileButton (ui (tool (world s0)))) = [("click", OnSelectFile)] ->
  let s := tool_run JSON_stringify Number_toString fetch_blob ops s0 in
  let t0 := tool (world s0) in
  let t := tool (world s) in
  listeners (nodes_fileButton (ui t)) = [("click", OnSelectFile)] /\
  api t = api t0 /\
  notifier_shown (world s)
  = (notifier_shown (world s0)
       ++ replicate (count_ops notifies ops) (failure_notification (api t0)))%list /\
  uploader_calls s = (uploader_calls s0 ++ omap (request_of fetch_blob) ops)%list /\
  (ToBoolean (file (_data t0)) = true -> ToBoolean (file (_data t)) = true) /\
  length (container_media (ui t))
  = length (container_media (ui t0)) + count_ops displays ops /\
  (videoEl_is_newest (ui t0) -> videoEl_is_newest (ui t)) /\
  map attributes (container_media (ui t0))
    `prefix_of` map attributes (container_media (ui t)) /\
  (length (active_statuses (ui t0)) <= 1 ->
   length (active_statuses (ui t)) <= 1) /\
  (existsb sets_status ops = true -> length (active_statuses (ui t)) = 1) /\
  (existsb sets_status ops = false -> existsb is_browser_dispatch ops = false ->
   active_statuses (ui t) = active_statuses (ui t0)).
Proof.
  intros Hb0. induction ops as [|op ops IH] using rev_ind.
  - cbn. rewrite !app_nil_r, Nat.add_0_r. repeat split; try done.
  - cbn zeta in IH. cbn zeta. rewrite tool_run_snoc.
    destruct IH as (Hb & Ha & Hn & Hc & Hf & Hl & Hv & Hp & H1 & H2 & H3).
    pose proof (tool_step_effect op _ Hb) as
      (Ea & Eb & En & Ec & Ef & Em & Es & Es1 & Es2).
    rewrite !count_ops_snoc, omap_app, !existsb_app. cbn [existsb omap].
    rewrite !orb_false_r.
    split; [by rewrite Eb|]. split; [by rewrite Ea|].
    split.
    { rewrite En, Hn, Ha, <- app_assoc. f_equal.
      destruct (notifies op).
      - by rewrite Nat.add_1_r, replicate_S_end.
      - by rewrite Nat.add_0_r, app_nil_r. }
    split.
    { rewrite Ec, Hc, <- app_assoc. f_equal; by destruct (request_of fetch_blob op). }
    split; [auto|].
    destruct (displays op).
    + destruct Em as (el & Em & Ev). rewrite Em, length_app. cbn.
      split; [lia|]. split.
      { intros _. unfold videoEl_is_newest. rewrite Ev, Em.
        by rewrite videoEl_is_newest_snoc. }
      split.
      { rewrite fmap_app. by apply prefix_app_r. }
      split.
      { intros H0. destruct Es as [-> | [st ->]]; [auto | cbn; lia]. }
      split.
      { intros [H | H]%orb_prop; [|by destruct (Es1 H) as [st ->]].
        destruct Es as [-> | [st ->]]; [auto | done]. }
      intros [Hs Hs']%orb_false_elim [Hd Hd']%orb_false_elim.
      by rewrite Es2, H3.
    + destruct Em as (Em & Ev).
      assert (length (container_media (ui (tool (world
                (tool_step JSON_stringify Number_toString fetch_blob op
                   (tool_run JSON_stringify Number_toString fetch_blob ops s0))))))
              = length (container_media (ui (tool (world
                  (tool_run JSON_stringify Number_toString fetch_blob ops s0))))))
        as El.
      { rewrite <- (length_map attributes), Em. apply length_map. }
      split; [lia|]. split.
      { intros H0. specialize (Hv H0). unfold videoEl_is_newest in *.
        rewrite Ev, Hv.
        destruct (container_media (ui (tool (world
                (tool_step JSON_stringify Number_toString fetch_blob op
                   (tool_run JSON_stringify Number_toString fetch_blob ops s0))))))
          as [|x1 m1],
          (container_media (ui (tool (world
                  (tool_run JSON_stringify Number_toString fetch_blob ops s0)))))
          as [|x2 m2]; cbn in El; try done. f_equal. lia. }
      split; [by rewrite Em|].
      split.
      { intros H0. destruct Es as [-> | [st ->]]; [auto | cbn; lia]. }
      split.
      { intros [H | H]%orb_prop; [|by destruct (Es1 H) as [st ->]].
        destruct Es as [-> | [st ->]]; [auto | done]. }
      intros [Hs Hs']%orb_false_elim [Hd Hd']%orb_false_elim.
      by rewrite Es2, H3.
Qed.

(** The session a constructor call starts. *)
Lemma new_session_initial data cfg a ro :
  let s0 := new_session Number_toString IconPicture reserialize data cfg a ro in
  let t0 := tool (world s0) in
  listeners (nodes_fileButton (ui t0)) = [("click", OnSelectFile)] /\
  api t0 = a /\
  notifier_shown (world s0) = [] /\
  uploader_calls s0 = [] /\
  ToBoolean (file (_data t0)) = true /\
  videoEl_is_newest (ui t0) /\
  (forallb (fun s => negb (String.eqb (styles_block a) (status_class s)))
     UiState.members = true ->
   active_statuses (ui t0) = []).
Proof.
  intros s0 t0. subst t0 s0.
  unfold new_session, VideoTool_constructor, set_data, bind, lift.
  cbn [world uploader_calls].
  destruct (Get data "file") as [f|e] eqn:Hf.
  2:{ cbn. repeat split; try done. apply active_statuses_constructor. }
  destruct (Get_other_property data "file" "caption" f Hf) as [c Hc].
  destruct (Get_other_property data "file" "aspectRatio" f Hf) as [r Hr].
  destruct (ToBoolean f) eqn:Htf.
  - destruct (Get_truthy f "url" Htf) as [url Hurl].
    rewrite (set_video_truthy Number_toString f url _ Htf Hurl).
    cbn. rewrite Hc. cbn. rewrite Hr. cbn.
    destruct (default None (user_features cfg)) as [[[|]|]|]; cbn;
      rewrite ?Hc; cbn; rewrite ?try_ui_applyTune_caption;
      destruct (ToBoolean url); cbn; repeat split;
      try done;
      intros Hbase;
      rewrite ?active_statuses_applyTune by reflexivity;
      by apply active_statuses_constructor.
  - rewrite (set_video_falsy Number_toString f _ Htf).
    cbn. rewrite Hc. cbn. rewrite Hr. cbn.
    destruct (default None (user_features cfg)) as [[[|]|]|]; cbn;
      rewrite ?Hc; cbn; rewrite ?try_ui_applyTune_caption; cbn;
      repeat split; try done;
      intros Hbase;
      rewrite ?active_statuses_applyTune by reflexivity;
      by apply active_statuses_constructor.
Qed.

(** X14. At every point of a tool's life the record's file is truthy, so
    [validate] applied to what [save] returns never throws: it returns the
    truthiness of the file's url. *)
Theorem saved_record_always_validates data cfg a ro ops :
  let s :=
    tool_run JSON_stringify Number_toString fetch_blob ops
      (new_session Number_toString IconPicture reserialize data cfg a ro) in
  exists d url,
    fst (save (world s)) = Return d /\
    file d = file (_data (tool (world s))) /\
    ToBoolean (file d) = true /\
    Get (file d) "url" = Return url /\
    validate (data_object d) = Return (ToBoolean url).
Proof.
  intros s.
  destruct (new_session_initial data cfg a ro) as (Hb & _ & _ & _ & Hf & _).
  destruct (tool_run_effect ops _ Hb) as (_ & _ & _ & _ & Hfile & _).
  specialize (Hfile Hf). fold s in Hfile.
  destruct (Get_truthy _ "url" Hfile) as [url Hurl].
  destruct (world s) as [[a' c' u' d' e'] n' l' k'] eqn:Hw. cbn in Hfile, Hurl.
  eexists. exists url. cbn. split; [reflexivity|]. split; [reflexivity|].
  split; [exact Hfile|]. split; [exact Hurl|].
  unfold validate, data_object. cbn. by rewrite Hurl.
Qed.

(** X15. The notifications a tool has shown are exactly one failure
    notification per failed upload (an error callback, or a response that
    [onUpload] rejects), and nothing else. *)
Theorem notifications_are_upload_failures data cfg a ro ops :
  let s :=
    tool_run JSON_stringify Number_toString fetch_blob ops
      (new_session Number_toString IconPicture reserialize data cfg a ro) in
  notifier_shown (world s)
  = replicate (count_ops notifies ops) (failure_notification a).
Proof.
  intros s.
  destruct (new_session_initial data cfg a ro) as (Hb & Ha & Hn & _).
  destruct (tool_run_effect ops _ Hb) as (_ & _ & Hnot & _).
  subst s. by rewrite Hnot, Hn, Ha.
Qed.



(** X18. In a host whose block class is none of the status classes: over any
    run of the controller at most one status class is on the wrapper;
    exactly one is, once [render], the preview callback, a failed upload or
    a paste by url has happened; and none is, as long as none of these has
    happened and no event has been dispatched. *)
Theorem controller_status_classes data cfg a ro ops :
  forallb (fun s => negb (String.eqb (styles_block a) (status_class s)))
    UiState.members = true ->
  let s :=
    tool_run JSON_stringify Number_toString fetch_blob ops
      (new_session Number_toString IconPicture reserialize data cfg a ro) in
  let u := ui (tool (world s)) in
  length (active_statuses u) <= 1 /\
  (existsb sets_status ops = true -> length (active_statuses u) = 1) /\
  (existsb sets_status ops = false -> existsb is_browser_dispatch ops = false ->
   active_statuses u = []).
Proof.
  intros Hbase s u.
  destruct (new_session_initial data cfg a ro)
    as (Hb & _ & _ & _ & _ & _ & H0).
  specialize (H0 Hbase).
  destruct (tool_run_effect ops _ Hb)
    as (_ & _ & _ & _ & _ & _ & _ & _ & H1 & H2 & H3).
  split; [apply H1; rewrite H0; cbn; lia|]. split; [exact H2|].
  intros Hs Hd. subst u s. by rewrite H3, H0.
Qed.

End Runs.

Lemma controller_status_classes_witness :
  length
    (active_statuses
       (ui (tool (world
          (example_run
             [DoRender; DoPaste (PastePattern "https://x/b.mp4");
              CallOnUpload
                (JObj [("success", JNum 1);
                       ("file", JObj [("url", JStr "https://x/b.mp4")])]);
              BrowserDispatch 1 "loadeddata"; DoSave]
             (example_session saved_png))))))
  = 1.
Proof.
  refine (proj1 (proj2
    (controller_status_classes example_JSON_stringify
       example_Number_toString example_fetch_blob example_IconPicture
       example_reserialize saved_png example_config example_api false _ _))
    _); reflexivity.
Defined.
